(** * Argon One Pi Controller: a shallow embedding of [main.go]

    The program starts three goroutines (temperature poller, fan controller,
    shutdown-button watcher) and a supervising [select].  Every goroutine is
    an endless [for] loop around calls to external collaborators (a shell
    command, the GPIO pin, the SMBus, the context).  Each loop is embedded
    here as a function from the answers of those collaborators to the
    sequence of operations the goroutine performs, in program order.

    A channel operation is recorded where the goroutine performs it; the
    buffers of the channels and the interleaving of the goroutines are not
    part of the embedding.

    Go's [float64] is Rocq's primitive binary64 [float]; its comparisons and
    its addition are the IEEE 754 ones of [PrimFloat]. *)

From Stdlib Require Import ZArith List Bool String Ascii Floats QArith Qabs Lia.
Import ListNotations.

Set Warnings "-inexact-float".

Local Open Scope string_scope.
Local Open Scope Z_scope.
Local Open Scope list_scope.

(** ** Go values *)

Definition float64 := float.

(** A non-nil Go [error], identified by its message; a value of the
    interface type [error] is [None] (nil) or [Some e]. *)
Definition error := string.
Definition go_error := option error.

(** [rpio.State]: [rpio.Low] and [rpio.High]. *)
Inductive State := Low | High.

Inductive Edge := NoEdge | RiseEdge | FallEdge | AnyEdge.
Inductive Mode := Input | Output.
Inductive Pull := PullOff | PullDown | PullUp.

(** The two package-level loggers. *)
Inductive logger := stdlog | errlog.

(** An argument of [Println]. *)
Inductive printed :=
| PStr (s : string)
| PErr (e : go_error)
| PSig (s : string).

(** ** Constants of the program *)

Definition name := "Argon One Pi Controller".
Definition description := "Watches shutdown button and temperature".
Definition shutdownPin : Z := 4.
Definition smbusFanAddress : Z := 0x1a.

(** ** Operations a goroutine performs, in program order *)

Inductive event :=
| Println (l : logger) (args : list printed)
| SendTemp (temp : float64)            (* tempChannel <- temp *)
| SendErr (err : go_error)             (* errCh <- err *)
| Sleep (ms : Z)                       (* time.Sleep(ms * time.Millisecond) *)
| RpioOpen                             (* rpio.Open() *)
| PinMode (pin : Z) (m : Mode)
| PullMode (pin : Z) (p : Pull)
| Detect (pin : Z) (e : Edge)
| Read (pin : Z)
| Write_block_data (cmd : Z) (buf : list Z)
| Run (path : string) (args : list string)   (* exec.Cmd.Run *)
| Go (f : string)                      (* go f(...) *)
| Cancel                               (* cancel() *)
| Exit (code : Z).                     (* os.Exit(code) *)

Definition trace := list event.

(** ** The answers of the external collaborators

    Each list holds the successive results of one kind of external call.  A
    goroutine that needs an answer when the list is empty is blocked in that
    call: the run ends there with the operations performed so far. *)

Record cmd_outcome := mkOutcome {
  cmd_err : go_error;        (* what [Run] returned *)
  cmd_stdout : string        (* what the command wrote to its stdout *)
}.

Record world := mkWorld {
  temp_runs : list cmd_outcome;       (* runs of [vcgencmd measure_temp] *)
  rpio_opens : list go_error;         (* results of [rpio.Open] *)
  pin_reads : list State;             (* results of [shutdownPin.Read] *)
  reboot_runs : list go_error;        (* results of [rebootCommand.Run] *)
  shutdown_runs : list go_error;      (* results of [shutdownCommand.Run] *)
  bus_writes : list go_error          (* results of [bus.Write_block_data] *)
}.

(** ** The goroutine monad: a world in, the operations performed and,
    unless the goroutine is blocked, a result and the rest of the world. *)

Definition M (A : Type) : Type := world -> trace * option (A * world).

Definition ret {A} (a : A) : M A := fun w => ([], Some (a, w)).

Definition bind {A B} (m : M A) (k : A -> M B) : M B :=
  fun w =>
    match m w with
    | (t, None) => (t, None)
    | (t, Some (a, w')) => let (t', r) := k a w' in (t ++ t', r)
    end.

Definition emit (e : event) : M unit := fun w => ([e], Some (tt, w)).

Definition blocked {A} : M A := fun _ => ([], None).

Notation "x <- m ;; k" := (bind m (fun x => k))
  (at level 61, m at next level, right associativity).
Notation "m ;;; k" := (bind m (fun _ => k))
  (at level 61, right associativity).

(** The operations of a run and whether the goroutine function returned. *)
Definition ops {A} (r : trace * option (A * world)) : trace := fst r.
Definition returned {A} (r : trace * option (A * world)) : bool :=
  match snd r with Some _ => true | None => false end.

(** Projections of a trace. *)
Definition temps_sent (t : trace) : list float64 :=
  flat_map (fun e => match e with SendTemp x => [x] | _ => [] end) t.
Definition errs_sent (t : trace) : list go_error :=
  flat_map (fun e => match e with SendErr x => [x] | _ => [] end) t.
Definition writes_issued (t : trace) : list (Z * list Z) :=
  flat_map (fun e => match e with Write_block_data c b => [(c, b)] | _ => [] end) t.
Definition runs_started (t : trace) : list (string * list string) :=
  flat_map (fun e => match e with Run p a => [(p, a)] | _ => [] end) t.

(** ** The polled cancellation loop

    [for { select { case <-ctx.Done(): onDone; return  default: body } }].
    [dones] holds the outcome of each successive poll of [ctx.Done()]; the
    body says whether the function returns from inside the loop. *)

Inductive ctl := Continue | Return.

Fixpoint for_select_default (dones : list bool) (onDone : M unit) (body : M ctl)
  : M unit :=
  match dones with
  | [] => blocked
  | true :: _ => onDone
  | false :: dones' =>
      c <- body ;;
      match c with
      | Return => ret tt
      | Continue => for_select_default dones' onDone body
      end
  end.

(** [n] consecutive executions of a loop body, stopping at a [Return]. *)
Fixpoint iterations (n : nat) (body : M ctl) : M ctl :=
  match n with
  | O => ret Continue
  | S n' =>
      c <- body ;;
      match c with
      | Return => ret Return
      | Continue => iterations n' body
      end
  end.

(** ** Taking the next answer of a collaborator *)

Definition next_temp_run : M cmd_outcome := fun w =>
  match temp_runs w with
  | [] => ([], None)
  | r :: rs =>
      ([], Some (r, mkWorld rs (rpio_opens w) (pin_reads w) (reboot_runs w)
                            (shutdown_runs w) (bus_writes w)))
  end.

Definition next_rpio_open : M go_error := fun w =>
  match rpio_opens w with
  | [] => ([], None)
  | r :: rs =>
      ([], Some (r, mkWorld (temp_runs w) rs (pin_reads w) (reboot_runs w)
                            (shutdown_runs w) (bus_writes w)))
  end.

Definition next_reboot_run : M go_error := fun w =>
  match reboot_runs w with
  | [] => ([], None)
  | r :: rs =>
      ([], Some (r, mkWorld (temp_runs w) (rpio_opens w) (pin_reads w) rs
                            (shutdown_runs w) (bus_writes w)))
  end.

Definition next_shutdown_run : M go_error := fun w =>
  match shutdown_runs w with
  | [] => ([], None)
  | r :: rs =>
      ([], Some (r, mkWorld (temp_runs w) (rpio_opens w) (pin_reads w)
                            (reboot_runs w) rs (bus_writes w)))
  end.

Definition next_bus_write : M go_error := fun w =>
  match bus_writes w with
  | [] => ([], None)
  | r :: rs =>
      ([], Some (r, mkWorld (temp_runs w) (rpio_opens w) (pin_reads w)
                            (reboot_runs w) (shutdown_runs w) rs))
  end.

(** ** Library functions the program calls *)

(** [strings.Replace(s, old, new, 1)]: the first occurrence of [old] in [s]
    replaced by [new]; [s] itself when [old] does not occur. *)
Fixpoint Replace1 (s old new : string) : string :=
  if String.prefix old s
  then (new ++ substring (String.length old)
                         (String.length s - String.length old) s)%string
  else match s with
       | EmptyString => EmptyString
       | String c s' => String c (Replace1 s' old new)
       end.

(** [byte(v)]: the low eight bits. *)
Definition byte_of (v : Z) : Z := Z.land v 255.

(** [make([]byte, n)]. *)
Definition make_bytes (n : nat) : list Z := repeat 0 n.

(** [b[i] = x] on a slice already known to be long enough. *)
Fixpoint store (i : nat) (x : Z) (b : list Z) : list Z :=
  match b, i with
  | [], _ => []
  | _ :: b', O => x :: b'
  | y :: b', S i' => y :: store i' x b'
  end.

(** [binary.LittleEndian.PutUint32(b, v)]; it panics ([None]) on a slice
    shorter than four bytes (the early bounds check [_ = b[3]]). *)
Definition PutUint32 (b : list Z) (v : Z) : option (list Z) :=
  if (List.length b <? 4)%nat then None
  else Some (store 3 (byte_of (Z.shiftr v 24))
            (store 2 (byte_of (Z.shiftr v 16))
            (store 1 (byte_of (Z.shiftr v 8))
            (store 0 (byte_of v) b)))).

(** [bus.Write_block_data(cmd, buf)]. *)
Definition bus_Write_block_data (cmd : Z) (buf : list Z) : M go_error :=
  emit (Write_block_data cmd buf) ;;; next_bus_write.

(** [rpio.Open()]. *)
Definition rpio_Open : M go_error := emit RpioOpen ;;; next_rpio_open.

(** ** Temperature poller *)

Section Temperature.

(** [strconv.ParseFloat(s, 64)], of Go's standard library. *)
Variable ParseFloat : string -> float64 * go_error.

Definition getCurrentTemperature : M (float64 * go_error) :=
  emit (Run "vcgencmd" ["measure_temp"]) ;;;
  getTempCommand <- next_temp_run ;;
  match cmd_err getTempCommand with
  | Some err => ret (0%float, Some err)
  | None =>
      let commandResult := cmd_stdout getTempCommand in
      let commandResult := Replace1 commandResult "temp=" "" in
      let commandResult := Replace1 commandResult "'C" "" in
      match ParseFloat commandResult with
      | (_, Some err) => ret (0%float, Some err)
      | (parsedFloat, None) => ret (parsedFloat, None)
      end
  end.

Definition monitorTemperature_body : M ctl :=
  r <- getCurrentTemperature ;;
  let (temp, err) := r in
  match err with
  | Some _ => emit (SendErr err) ;;; ret Return
  | None => emit (SendTemp temp) ;;; emit (Sleep 5000) ;;; ret Continue
  end.

Definition monitorTemperature (dones : list bool) : M unit :=
  for_select_default dones
    (emit (Println stdlog [PStr "temperature-watch: cancellation requested"]))
    monitorTemperature_body.

End Temperature.

(** ** Fan controller *)

(** What the blocking [select] of [handleTemperature] picked. *)
Inductive selected := CtxDone | Received (temp : float64).

Definition handleTemperature_body (temp : float64) : M unit :=
  if (50 <? temp)%float then
    let fanSpeedBytes := make_bytes 4 in
    match PutUint32 fanSpeedBytes 100 with
    | None => blocked
    | Some fanSpeedBytes =>
        bus_Write_block_data smbusFanAddress fanSpeedBytes ;;; ret tt
    end
  else ret tt.

Fixpoint handleTemperature (sel : list selected) : M unit :=
  match sel with
  | [] => blocked
  | CtxDone :: _ =>
      emit (Println stdlog [PStr "temperature-handler: cancellation requested"])
  | Received temp :: sel' =>
      handleTemperature_body temp ;;; handleTemperature sel'
  end.

(** ** Shutdown-button watcher *)

(** [for shutdownPin.Read() == rpio.High { time.Sleep(sleepTime); pulseTime += tick }]
    over the successive pin levels: the operations performed and, once the
    pin has read low, the accumulated pulse time and the unread levels. *)
Fixpoint pulse_loop (reads : list State) (sleepTime : Z) (tick pulseTime : float64)
  : trace * option (float64 * list State) :=
  match reads with
  | [] => ([Read shutdownPin], None)
  | High :: reads' =>
      let (t, r) := pulse_loop reads' sleepTime tick (pulseTime + tick)%float in
      (Read shutdownPin :: Sleep sleepTime :: t, r)
  | Low :: reads' => ([Read shutdownPin], Some (pulseTime, reads'))
  end.

Definition measure (sleepTime : Z) (tick pulseTime : float64) : M float64 := fun w =>
  match pulse_loop (pin_reads w) sleepTime tick pulseTime with
  | (t, None) => (t, None)
  | (t, Some (p, rest)) =>
      (t, Some (p, mkWorld (temp_runs w) (rpio_opens w) rest (reboot_runs w)
                           (shutdown_runs w) (bus_writes w)))
  end.

Definition rebootCommand_Run : M go_error :=
  emit (Run "reboot" []) ;;; next_reboot_run.

Definition shutdownCommand_Run : M go_error :=
  emit (Run "shutdown" ["now"]) ;;; next_shutdown_run.

(** The two [if] statements that follow the measuring loop. *)
Definition classify (pulseTime : float64) : M unit :=
  (if (2 <=? pulseTime)%float || (pulseTime <=? 3)%float then
     err <- rebootCommand_Run ;;
     match err with
     | Some _ => emit (SendErr err)
     | None => ret tt
     end
   else ret tt) ;;;
  (if (4 <=? pulseTime)%float then
     err <- shutdownCommand_Run ;;
     match err with
     | Some _ => emit (SendErr err)
     | None => ret tt
     end
   else ret tt).

(** The [default] branch of the watcher's loop. *)
Definition watchShutdownButton_body : M ctl :=
  let sleepTime := 100 in
  let tick := 0.1%float in
  let pulseTime := tick in
  emit (Detect shutdownPin RiseEdge) ;;;
  emit (Sleep sleepTime) ;;;
  pulseTime <- measure sleepTime tick pulseTime ;;
  classify pulseTime ;;;
  ret Continue.

Definition watchShutdownButton_loop (dones : list bool) : M unit :=
  for_select_default dones
    (emit (Println stdlog [PStr "button-watch: cancellation requested"]))
    watchShutdownButton_body.

Definition watchShutdownButton (dones : list bool) : M unit :=
  err <- rpio_Open ;;
  match err with
  | Some _ => emit (SendErr err)
  | None =>
      emit (PinMode shutdownPin Input) ;;;
      emit (PullMode shutdownPin PullDown) ;;;
      watchShutdownButton_loop dones
  end.

(** ** Supervisor: [Service.Manage] and [main] *)

(** The service-management methods of [daemon.Daemon]. *)
Inductive daemon_method := Install | Remove | Start | Stop | Status.

(** What the supervising [select] receives: a signal on [osInterrupt] or a
    value on [errChannel]. *)
Inductive arrival :=
| OsInterrupt (killSignal : string)
| ErrChannel (err : go_error).

Record process := mkProcess {
  os_Args : list string;
  daemon_New : go_error;                             (* err of [daemon.New] *)
  daemon_call : daemon_method -> string * go_error;  (* Install() ... Status() *)
  smbus_New : go_error;                              (* err of [smbus.New] *)
  arrivals : list arrival                            (* in order of arrival *)
}.

Definition usage :=
  "Usage: argononepicontroller install | remove | start | stop | status".

Definition Manage (p : process) : M (string * go_error) :=
  match os_Args p with
  | _ :: command :: _ =>
      if String.eqb command "install" then ret (daemon_call p Install)
      else if String.eqb command "remove" then ret (daemon_call p Remove)
      else if String.eqb command "start" then ret (daemon_call p Start)
      else if String.eqb command "stop" then ret (daemon_call p Stop)
      else if String.eqb command "status" then ret (daemon_call p Status)
      else ret (usage, None)
  | _ =>
      err <- rpio_Open ;;
      match err with
      | Some _ => ret ("failed opening gpio", err)
      | None =>
          match smbus_New p with
          | Some e => ret ("failed opening smbus", Some e)
          | None =>
              emit (Go "monitorTemperature") ;;;
              emit (Go "handleTemperature") ;;;
              emit (Go "watchShutdownButton") ;;;
              match arrivals p with
              | [] => blocked
              | OsInterrupt killSignal :: _ =>
                  emit (Println stdlog [PStr "Got signal: "; PSig killSignal]) ;;;
                  emit Cancel ;;;
                  ret ("Process finished", None)
              | ErrChannel err :: _ =>
                  emit Cancel ;;;
                  ret ("failed", err)
              end
          end
      end
  end.

(** [main]; its result is the exit status of the process: the argument of
    [os.Exit], or 0 when [main] returns. *)
Definition main (p : process) : M Z :=
  match daemon_New p with
  | Some err =>
      emit (Println errlog [PStr "Error: "; PErr (Some err)]) ;;;
      emit (Exit 1) ;;;
      ret 1
  | None =>
      r <- Manage p ;;
      let (status, err) := r in
      match err with
      | Some _ =>
          emit (Println errlog [PStr status; PStr (String "010" "Error: "); PErr err]) ;;;
          emit (Exit 1) ;;;
          ret 1
      | None =>
          emit (Println stdlog [PStr status]) ;;;
          ret 0
      end
  end.

(** * Vocabulary of the properties *)

(** What [getCurrentTemperature] returns when the command run is [o]. *)
Definition read_result (ParseFloat : string -> float64 * go_error)
           (o : cmd_outcome) : float64 * go_error :=
  match snd (getCurrentTemperature ParseFloat (mkWorld [o] [] [] [] [] [])) with
  | Some (r, _) => r
  | None => (0%float, None)
  end.

(** A world whose power commands and bus writes all succeed, and which is
    otherwise [w]. *)
Definition all_succeed (w : world) : world :=
  mkWorld (temp_runs w) (rpio_opens w) (pin_reads w)
          (map (fun _ => None) (reboot_runs w))
          (map (fun _ => None) (shutdown_runs w))
          (map (fun _ => None) (bus_writes w)).

(** [binary.LittleEndian.Uint32(b)], the decoding that [PutUint32] inverts. *)
Definition Uint32 (b : list Z) : option Z :=
  match b with
  | b0 :: b1 :: b2 :: b3 :: _ =>
      Some (Z.lor (Z.lor (Z.lor b0 (Z.shiftl b1 8)) (Z.shiftl b2 16)) (Z.shiftl b3 24))
  | _ => None
  end.

(** The one command of the fan controller: speed 100. *)
Definition speed_100 : Z * list Z := (smbusFanAddress, [100; 0; 0; 0]).

(** The accumulator of the watcher after [T] high polls: it starts at one
    tick and gains one tick per poll, in [float64] arithmetic. *)
Definition tick : float64 := 0.1%float.
Definition pulse_after (T : nat) : float64 :=
  Nat.iter T (fun pulseTime => (pulseTime + tick)%float) tick.

(** The rational number a finite [float64] stands for. *)
Definition exact (x : float64) : option Q :=
  match Prim2SF x with
  | S754_zero _ => Some 0%Q
  | S754_finite s m e =>
      Some ((if s then -1 else 1) * inject_Z (Zpos m) * Qpower 2 e)%Q
  | _ => None
  end.

(** 0.1 + 0.1 * T, in exact arithmetic. *)
Definition ideal_pulse (T : nat) : Q :=
  ((1 # 10) + (1 # 10) * inject_Z (Z.of_nat T))%Q.

(** [p] is finite and within [eps] of [ideal_pulse T]. *)
Definition close (eps : Q) (T : nat) (p : float64) : bool :=
  match exact p with
  | Some v => Qle_bool (Qabs (v - ideal_pulse T)) eps
  | None => false
  end.

(** [close] for the [n] pulses [T], [T+1], ... that follow [p]. *)
Fixpoint all_close (eps : Q) (n T : nat) (p : float64) : bool :=
  match n with
  | O => true
  | S n' => close eps T p && all_close eps n' (S T) (p + tick)%float
  end.

(** [math.IsNaN]. *)
Definition IsNaN (x : float64) : bool :=
  match Prim2SF x with S754_nan => true | _ => false end.

(** Neither NaN nor negative. *)
Definition sf_nonneg (x : spec_float) : bool :=
  match x with
  | S754_nan => false
  | S754_infinity s | S754_finite s _ _ => negb s
  | S754_zero _ => true
  end.

(** A stand-in for [strconv.ParseFloat] on the few inputs of the examples. *)
Definition sample_ParseFloat (s : string) : float64 * go_error :=
  if String.eqb s "30.0" then (30%float, None)
  else if String.eqb s "55.0" then (55%float, None)
  else if String.eqb s "40.0" then (40%float, None)
  else (0%float, Some "strconv.ParseFloat: parsing: invalid syntax").

(** The send that follows a power command: on a non-nil error only. *)
Definition report (err : go_error) : trace :=
  match err with
  | Some _ => [SendErr err]
  | None => []
  end.

(** The operations of the measuring loop over [T] high polls and a low one. *)
Definition measuring (T : nat) : trace :=
  List.concat (repeat [Read shutdownPin; Sleep 100] T) ++ [Read shutdownPin].

(** [m] runs the same commands, in the same order, whether the power
    commands and bus writes fail or succeed, and ends in the same state up
    to those results. *)
Definition same_runs {A} (m : M A) : Prop :=
  forall w,
    runs_started (ops (m w)) = runs_started (ops (m (all_succeed w))) /\
    match snd (m w), snd (m (all_succeed w)) with
    | Some (a1, w1), Some (a2, w2) => a1 = a2 /\ w2 = all_succeed w1
    | None, None => True
    | _, _ => False
    end.

(** The process was started without a subcommand and its start-up succeeds. *)
Definition enters_control_loop (p : process) (w : world) : Prop :=
  (List.length (os_Args p) <= 1)%nat /\
  daemon_New p = None /\
  smbus_New p = None /\
  hd_error (rpio_opens w) = Some None.

(** The operations of [main] up to the supervising [select]. *)
Definition startup_ops : trace :=
  [RpioOpen; Go "monitorTemperature"; Go "handleTemperature";
   Go "watchShutdownButton"].

(** Every operation of [m], in every world, satisfies [P]. *)
Definition always {A} (P : event -> Prop) (m : M A) : Prop :=
  forall w, Forall P (ops (m w)).

(** The run [r] preceded by the operations [t]. *)
Definition after {A} (t : trace) (r : trace * option (A * world))
  : trace * option (A * world) :=
  (t ++ fst r, snd r).

Definition set_temp_runs (rs : list cmd_outcome) (w : world) : world :=
  mkWorld rs (rpio_opens w) (pin_reads w) (reboot_runs w) (shutdown_runs w)
          (bus_writes w).

Definition set_bus_writes (rs : list go_error) (w : world) : world :=
  mkWorld (temp_runs w) (rpio_opens w) (pin_reads w) (reboot_runs w)
          (shutdown_runs w) rs.

(** What the fan controller does with one reading. *)
Definition fan_response (temp : float64) : trace :=
  if (50 <? temp)%float
  then [Write_block_data smbusFanAddress [100; 0; 0; 0]]
  else [].

(** The readings above the threshold. *)
Definition hot (rs : list float64) : list float64 :=
  filter (fun temp => (50 <? temp)%float) rs.

(** What the poller does with one successful reading. *)
Definition poll_ok (temp : float64) : trace :=
  [Run "vcgencmd" ["measure_temp"]; SendTemp temp; Sleep 5000].

(** An operation other than the send of a nil error. *)
Definition not_nil_send (e : event) : Prop := e <> SendErr None.

(** The subcommand that selects a service-management method. *)
Definition method_name (m : daemon_method) : string :=
  match m with
  | Install => "install"
  | Remove => "remove"
  | Start => "start"
  | Stop => "stop"
  | Status => "status"
  end.

(** No character of [s] is an apostrophe. *)
Fixpoint no_apostrophe (s : string) : bool :=
  match s with
  | EmptyString => true
  | String c s' => negb (Ascii.eqb c "'") && no_apostrophe s'
  end.

(** The time slept over a trace, in milliseconds. *)
Definition slept (t : trace) : Z :=
  fold_right (fun e acc => match e with Sleep ms => ms + acc | _ => acc end) 0 t.

(** The number of reads of the pin in a trace. *)
Definition reads_made (t : trace) : nat :=
  List.length (filter (fun e => match e with Read _ => true | _ => false end) t).

(** The two comparisons of the classification agree with the counts of 19
    and 39 high polls. *)
Definition thresholds_at (T : nat) (p : float64) : bool :=
  Bool.eqb (2 <=? p)%float (19 <=? T)%nat && Bool.eqb (4 <=? p)%float (39 <=? T)%nat.

Fixpoint all_thresholds (n T : nat) (p : float64) : bool :=
  match n with
  | O => true
  | S n' => thresholds_at T p && all_thresholds n' (S T) (p + tick)%float
  end.

(** The last operations of a poller: nothing, a command that has not
    returned, a failed read with the send of its error, or the log line of
    the cancellation. *)
Definition poller_tail (t : trace) : Prop :=
  t = [] \/
  t = [Run "vcgencmd" ["measure_temp"]] \/
  (exists e, t = [Run "vcgencmd" ["measure_temp"]; SendErr (Some e)]) \/
  t = [Println stdlog [PStr "temperature-watch: cancellation requested"]].



(** * Properties *)

(** ** The monad *)

Lemma bind_ret_l {A B} (a : A) (k : A -> M B) (w : world) :
  bind (ret a) k w = k a w.
Proof. unfold bind, ret. destruct (k a w). reflexivity. Qed.

Lemma bind_emit {B} (e : event) (k : unit -> M B) (w : world) :
  bind (emit e) k w = (e :: fst (k tt w), snd (k tt w)).
Proof. unfold bind, emit. destruct (k tt w). reflexivity. Qed.

Lemma bind_ext {A B} (m : M A) (f g : A -> M B) (w : world) :
  (forall a w', f a w' = g a w') -> bind m f w = bind m g w.
Proof.
  intros H. unfold bind. destruct (m w) as [t [[a w']|]]; [|reflexivity].
  now rewrite H.
Qed.

Lemma bind_assoc {A B C} (m : M A) (f : A -> M B) (g : B -> M C) (w : world) :
  bind (bind m f) g w = bind m (fun a => bind (f a) g) w.
Proof.
  unfold bind. destruct (m w) as [t [[a w']|]]; [|reflexivity].
  destruct (f a w') as [t' [[b w'']|]]; [|reflexivity].
  destruct (g b w'') as [t'' r]. now rewrite app_assoc.
Qed.

Lemma bind_done {A B} (m : M A) (k : A -> M B) (w w' : world) (t : trace) (a : A) :
  m w = (t, Some (a, w')) -> bind m k w = (t ++ fst (k a w'), snd (k a w')).
Proof. intros H. unfold bind. rewrite H. now destruct (k a w'). Qed.

(** ** The polled loop: polls that find the context live, then one that
    finds it done *)

Lemma for_select_default_cancelled (n : nat) (rest : list bool)
      (onDone : M unit) (body : M ctl) (w : world) :
  for_select_default (repeat false n ++ true :: rest) onDone body w =
  bind (iterations n body)
       (fun c => match c with Return => ret tt | Continue => onDone end) w.
Proof.
  revert w. induction n as [|n IH]; intros w; simpl.
  - now rewrite bind_ret_l.
  - rewrite bind_assoc. apply bind_ext. intros [] w'.
    + apply IH.
    + now rewrite bind_ret_l.
Qed.

(** ** [float64] comparisons and additions *)

Section Float64.

Local Open Scope float_scope.

Lemma Prim2SF_2 : Prim2SF 2 = S754_finite false 4503599627370496 (-51).
Proof. now vm_compute. Qed.

Lemma Prim2SF_3 : Prim2SF 3 = S754_finite false 6755399441055744 (-51).
Proof. now vm_compute. Qed.

Lemma SFcompare_antisym (x y : spec_float) :
  SFcompare y x = option_map CompOpp (SFcompare x y).
Proof.
  destruct x as [[]|[]| |[] mx ex], y as [[]|[]| |[] my ey];
    cbn [SFcompare option_map CompOpp]; try reflexivity.
  all: rewrite (Z.compare_antisym ey ex); destruct (ey ?= ex)%Z;
    cbn [CompOpp]; try reflexivity.
  all: change (Pos.compare_cont Eq ?a ?b) with (Pos.compare a b);
    rewrite (Pos.compare_antisym mx my); now rewrite ?CompOpp_involutive.
Qed.

(** [x <= y] excludes [y < x]. *)
Lemma leb_ltb_false (x y : float64) : (x <=? y) = true -> (y <? x) = false.
Proof.
  rewrite leb_spec, ltb_spec. unfold SFleb, SFltb.
  rewrite (SFcompare_antisym (Prim2SF x) (Prim2SF y)).
  destruct (SFcompare (Prim2SF x) (Prim2SF y)) as [[]|]; cbn; congruence.
Qed.

(** A comparison that holds has no NaN operand. *)
Lemma leb_true_not_nan (x y : float64) :
  (x <=? y) = true -> IsNaN x = false /\ IsNaN y = false.
Proof.
  rewrite leb_spec. unfold SFleb, IsNaN.
  destruct (Prim2SF x) as [[]|[]| |[] mx ex], (Prim2SF y) as [[]|[]| |[] my ey];
    cbn [SFcompare]; intros H; try discriminate; auto.
Qed.

Lemma SFleb_between (x : spec_float) (lo hi : positive) (e0 : Z) :
  (lo <= hi)%positive -> x <> S754_nan ->
  SFleb (S754_finite false lo e0) x || SFleb x (S754_finite false hi e0) = true.
Proof.
  intros Hlh Hx. unfold SFleb.
  destruct x as [[]|[]| |[] m e]; cbn [SFcompare orb]; try reflexivity; try congruence.
  rewrite (Z.compare_antisym e e0).
  destruct (Z.compare_spec e e0) as [He|He|He]; cbn [CompOpp orb]; try reflexivity.
  change (Pos.compare_cont Eq ?a ?b) with (Pos.compare a b).
  rewrite (Pos.compare_antisym m lo).
  destruct (Pos.compare_spec m lo) as [Hm|Hm|Hm]; cbn [CompOpp orb]; try reflexivity.
  destruct (Pos.compare_spec m hi) as [Hm'|Hm'|Hm']; try reflexivity.
  lia.
Qed.

(** [pulseTime >= 2 || pulseTime <= 3] holds of everything but NaN. *)
Lemma reboot_condition_not_nan (d : float64) :
  IsNaN d = false -> (2 <=? d) || (d <=? 3) = true.
Proof.
  intros H. rewrite !leb_spec, Prim2SF_2, Prim2SF_3. apply SFleb_between.
  - now vm_compute.
  - unfold IsNaN in H. now destruct (Prim2SF d).
Qed.

Lemma reboot_condition_nan (d : float64) :
  IsNaN d = true -> (2 <=? d) || (d <=? 3) = false.
Proof.
  intros H.
  destruct (2 <=? d) eqn:E2.
  { apply leb_true_not_nan in E2. destruct E2; congruence. }
  destruct (d <=? 3) eqn:E3; [|reflexivity].
  apply leb_true_not_nan in E3. destruct E3; congruence.
Qed.

(** *** Rounding keeps a non-negative mantissa non-negative *)

Lemma iter_pos_inv {A} (P : A -> Prop) (f : A -> A) :
  (forall x, P x -> P (f x)) -> forall n x, P x -> P (SpecFloat.iter_pos f n x).
Proof.
  intros Hf. induction n as [n IH|n IH|]; intros x Hx; cbn [SpecFloat.iter_pos]; auto.
Qed.

Lemma shr_1_nonneg (mrs : shr_record) :
  (0 <= shr_m mrs)%Z -> (0 <= shr_m (shr_1 mrs))%Z.
Proof.
  destruct mrs as [m r s]. cbn [shr_m shr_1].
  destruct m as [|[p|p|]|p]; cbn [shr_m]; lia.
Qed.

Lemma shr_nonneg (mrs : shr_record) (e n : Z) :
  (0 <= shr_m mrs)%Z -> (0 <= shr_m (fst (shr mrs e n)))%Z.
Proof.
  intros H. unfold shr. destruct n; cbn [fst]; auto.
  apply (iter_pos_inv (fun x => (0 <= shr_m x)%Z)); auto using shr_1_nonneg.
Qed.

Lemma shr_fexp_nonneg (m e : Z) (l : location) :
  (0 <= m)%Z -> (0 <= shr_m (fst (shr_fexp prec emax m e l)))%Z.
Proof.
  intros H. unfold shr_fexp. apply shr_nonneg.
  destruct l as [|[]]; cbn [shr_record_of_loc shr_m]; exact H.
Qed.

Lemma round_nearest_even_nonneg (m : Z) (l : location) :
  (0 <= m)%Z -> (0 <= round_nearest_even m l)%Z.
Proof.
  intros H. unfold round_nearest_even. destruct l as [|[]]; try lia.
  destruct (Z.even m); lia.
Qed.

Lemma binary_round_aux_nonneg (mx ex : Z) (lx : location) :
  (0 <= mx)%Z -> sf_nonneg (binary_round_aux prec emax false mx ex lx) = true.
Proof.
  intros H. unfold binary_round_aux.
  pose proof (shr_fexp_nonneg mx ex lx H) as H1.
  destruct (shr_fexp prec emax mx ex lx) as [mrs' e']. cbn [fst] in H1.
  pose proof (shr_fexp_nonneg _ e' loc_Exact
               (round_nearest_even_nonneg _ (loc_of_shr_record mrs') H1)) as H2.
  destruct (shr_fexp prec emax _ e' loc_Exact) as [mrs'' e'']. cbn [fst] in H2.
  destruct (shr_m mrs''); try reflexivity; try lia.
  destruct (Z.leb e'' (emax - prec)); reflexivity.
Qed.

(** The sum of two non-negative numbers is neither NaN nor negative. *)
Lemma SF64add_nonneg (x y : spec_float) :
  sf_nonneg x = true -> sf_nonneg y = true -> sf_nonneg (SF64add x y) = true.
Proof.
  destruct x as [[]|[]| |[] mx ex], y as [[]|[]| |[] my ey];
    cbn [sf_nonneg negb]; intros Hx Hy; try discriminate; try reflexivity.
  unfold SF64add, SFadd. cbn [cond_Zopp]. unfold binary_normalize.
  destruct (shl_align mx ex (Z.min ex ey)) as [a ?],
           (shl_align my ey (Z.min ex ey)) as [b ?].
  cbn [fst]. change (Z.pos a + Z.pos b)%Z with (Z.pos (a + b)).
  cbv iota. unfold binary_round.
  destruct (shl_align _ _ _) as [mz ez]. apply binary_round_aux_nonneg. lia.
Qed.

Lemma sf_nonneg_not_nan (x : float64) :
  sf_nonneg (Prim2SF x) = true -> IsNaN x = false.
Proof. unfold IsNaN. now destruct (Prim2SF x). Qed.

(** The accumulator is never NaN and never negative. *)
Lemma pulse_after_nonneg (T : nat) : sf_nonneg (Prim2SF (pulse_after T)) = true.
Proof.
  induction T as [|T IH]; [now vm_compute|].
  change (pulse_after (S T)) with (pulse_after T + tick). rewrite add_spec.
  apply SF64add_nonneg; [exact IH|now vm_compute].
Qed.

End Float64.

(** ** Shutdown-button watcher *)

Lemma ops_bind_done {A B} (m : M A) (k : A -> M B) (w w' : world) (t : trace) (a : A) :
  m w = (t, Some (a, w')) -> ops (bind m k w) = t ++ ops (k a w').
Proof. intros H. unfold ops. now rewrite (bind_done m k w w' t a H). Qed.

Lemma rebootCommand_Run_returns (w : world) (r : go_error) (rs : list go_error) :
  reboot_runs w = r :: rs ->
  rebootCommand_Run w =
  ([Run "reboot" []],
   Some (r, mkWorld (temp_runs w) (rpio_opens w) (pin_reads w) rs
                    (shutdown_runs w) (bus_writes w))).
Proof.
  intros H. unfold rebootCommand_Run, bind, emit, next_reboot_run. now rewrite H.
Qed.

Lemma shutdownCommand_Run_returns (w : world) (r : go_error) (rs : list go_error) :
  shutdown_runs w = r :: rs ->
  shutdownCommand_Run w =
  ([Run "shutdown" ["now"]],
   Some (r, mkWorld (temp_runs w) (rpio_opens w) (pin_reads w) (reboot_runs w)
                    rs (bus_writes w))).
Proof.
  intros H. unfold shutdownCommand_Run, bind, emit, next_shutdown_run. now rewrite H.
Qed.

(** The operations of the classification when the reboot command returns. *)
Lemma classify_ops (d : float64) (w : world) (r : go_error) (rs : list go_error) :
  reboot_runs w = r :: rs ->
  ops (classify d w) =
  (if (2 <=? d)%float || (d <=? 3)%float then Run "reboot" [] :: report r else []) ++
  (if (4 <=? d)%float
   then Run "shutdown" ["now"] :: match shutdown_runs w with
                                  | s :: _ => report s
                                  | [] => []
                                  end
   else []).
Proof.
  intros Hr. unfold classify.
  destruct ((2 <=? d)%float || (d <=? 3)%float).
  - rewrite bind_assoc.
    rewrite (ops_bind_done _ _ _ _ _ _ (rebootCommand_Run_returns w r rs Hr)).
    cbn [app]. f_equal.
    set (w' := mkWorld _ _ _ _ _ _).
    assert (Hs : shutdown_runs w' = shutdown_runs w) by reflexivity.
    destruct r as [e|]; cbn [report].
    + rewrite bind_emit. cbn [ops fst app]. f_equal.
      destruct (4 <=? d)%float; [|reflexivity].
      unfold bind. destruct (shutdown_runs w) as [|s ss] eqn:E.
      * unfold shutdownCommand_Run, bind, emit, next_shutdown_run. rewrite Hs. reflexivity.
      * rewrite (shutdownCommand_Run_returns w' s ss Hs). now destruct s.
    + rewrite bind_ret_l. cbn [app].
      destruct (4 <=? d)%float; [|reflexivity].
      unfold bind. destruct (shutdown_runs w) as [|s ss] eqn:E.
      * unfold shutdownCommand_Run, bind, emit, next_shutdown_run. rewrite Hs. reflexivity.
      * rewrite (shutdownCommand_Run_returns w' s ss Hs). now destruct s.
  - rewrite bind_ret_l. cbn [app].
    destruct (4 <=? d)%float; [|reflexivity].
    unfold bind. destruct (shutdown_runs w) as [|s ss] eqn:E.
    + unfold shutdownCommand_Run, bind, emit, next_shutdown_run. rewrite E. reflexivity.
    + rewrite (shutdownCommand_Run_returns w s ss E). now destruct s.
Qed.

Lemma runs_started_app (t1 t2 : trace) :
  runs_started (t1 ++ t2) = runs_started t1 ++ runs_started t2.
Proof. apply flat_map_app. Qed.

Lemma errs_sent_app (t1 t2 : trace) :
  errs_sent (t1 ++ t2) = errs_sent t1 ++ errs_sent t2.
Proof. apply flat_map_app. Qed.

Lemma runs_started_report (r : go_error) : runs_started (report r) = [].
Proof. now destruct r. Qed.

(** The measuring loop over [T] high polls followed by a low one adds one
    tick per high poll and leaves the later levels unread. *)
Lemma pulse_loop_high (T : nat) (rest : list State) (tick0 p : float64) :
  pulse_loop (repeat High T ++ Low :: rest) 100 tick0 p =
  (measuring T, Some (Nat.iter T (fun x => (x + tick0)%float) p, rest)).
Proof.
  revert p. induction T as [|T IH]; intros p; [reflexivity|].
  cbn [repeat app pulse_loop]. rewrite IH. unfold measuring.
  cbn [repeat List.concat app]. now rewrite Nat.iter_succ_r.
Qed.

(** The loop never ends while the pin reads high. *)
Lemma pulse_loop_stuck (T : nat) (tick0 p : float64) :
  snd (pulse_loop (repeat High T) 100 tick0 p) = None.
Proof.
  revert p. induction T as [|T IH]; intros p; [reflexivity|].
  cbn [repeat pulse_loop]. specialize (IH (p + tick0)%float).
  now destruct (pulse_loop (repeat High T) 100 tick0 (p + tick0)%float).
Qed.

(** One iteration of the watcher over a press of [T] high polls. *)
Lemma watchShutdownButton_body_ops (T : nat) (w : world) (rest : list State) :
  pin_reads w = repeat High T ++ Low :: rest ->
  ops (watchShutdownButton_body w) =
  Detect shutdownPin RiseEdge :: Sleep 100 :: measuring T ++
  ops (classify (pulse_after T)
         (mkWorld (temp_runs w) (rpio_opens w) rest (reboot_runs w)
                  (shutdown_runs w) (bus_writes w))).
Proof.
  intros Hp. unfold watchShutdownButton_body.
  rewrite bind_emit. cbn [fst]. rewrite bind_emit. cbn [fst ops].
  do 2 f_equal.
  set (w' := mkWorld _ _ _ _ _ _).
  assert (Hm : measure 100 0.1%float 0.1%float w = (measuring T, Some (pulse_after T, w'))).
  { unfold measure. rewrite Hp, pulse_loop_high. reflexivity. }
  change (fst ?x) with (ops x).
  rewrite (ops_bind_done _ _ _ _ _ _ Hm). f_equal.
  unfold bind, ops. destruct (classify (pulse_after T) w') as [t [[[] w'']|]];
    cbn [fst ret]; [now rewrite app_nil_r|reflexivity].
Qed.

Lemma all_close_spec (eps : Q) (n T0 : nat) :
  all_close eps n T0 (pulse_after T0) = true ->
  forall T, (T0 <= T < T0 + n)%nat -> close eps T (pulse_after T) = true.
Proof.
  revert T0. induction n as [|n IH]; intros T0 H T HT; [lia|].
  cbn [all_close] in H. apply andb_prop in H. destruct H as [H0 H1].
  destruct (Nat.eq_dec T T0) as [->|Hne]; [exact H0|].
  apply (IH (S T0)); [exact H1|lia].
Qed.

Lemma all_close_600 : all_close (1 # 1000000000000) 601 0 (pulse_after 0) = true.
Proof. now vm_compute. Qed.

(** C4 (as amended).  A press whose pin level reads high for exactly [T]
    polls and then low leaves in the accumulator the float64 value obtained
    from 0.1 by [T] successive float64 additions of 0.1, after the
    operations [measuring T] (one 100 ms sleep per high poll); for every
    [T <= 600] that value is finite and within 10^-12 of 0.1 + 0.1*T. *)
Theorem pulse_accumulation (T : nat) (rest : list State) :
  pulse_loop (repeat High T ++ Low :: rest) 100 0.1%float 0.1%float =
    (measuring T, Some (pulse_after T, rest)) /\
  ((T <= 600)%nat ->
   exists v : Q, exact (pulse_after T) = Some v /\
                 (Qabs (v - ideal_pulse T) <= 1 # 1000000000000)%Q).
Proof.
  split; [apply pulse_loop_high|].
  intros HT.
  assert (H : close (1 # 1000000000000) T (pulse_after T) = true).
  { apply (all_close_spec _ 601 0 all_close_600). lia. }
  unfold close in H. destruct (exact (pulse_after T)) as [v|]; [|discriminate].
  exists v. split; [reflexivity|]. now apply Qle_bool_iff.
Qed.

Lemma pulse_accumulation_witness :
  pulse_loop (repeat High 25 ++ [Low]) 100 0.1%float 0.1%float =
    (measuring 25, Some (pulse_after 25, [])) /\
  exists v : Q, exact (pulse_after 25) = Some v /\
                (Qabs (v - ideal_pulse 25) <= 1 # 1000000000000)%Q.
Proof.
  destruct (pulse_accumulation 25 []) as [H1 H2].
  split; [exact H1|]. apply H2. lia.
Defined.

(** C4 as stated fails at [T = 7]: the accumulator holds
    0.79999999999999993, which is below the float64 value of
    [0.1 + 0.1 * 7] and below the rational 8/10. *)
Lemma pulse_accumulation_inexact :
  exists p : float64,
    snd (pulse_loop (repeat High 7 ++ [Low]) 100 0.1%float 0.1%float) = Some (p, []) /\
    (p <? 0.1 + 0.1 * 7)%float = true /\
    exists v : Q, exact p = Some v /\ (v < ideal_pulse 7)%Q.
Proof.
  exists (pulse_after 7). split; [now rewrite pulse_loop_high|].
  split; [now vm_compute|].
  eexists. split; [now vm_compute|]. now vm_compute.
Qed.

(** The reboot command is run as soon as its condition holds, whether or
    not it then returns. *)
Lemma classify_runs_reboot (d : float64) (w : world) :
  (2 <=? d)%float || (d <=? 3)%float = true ->
  In (Run "reboot" []) (ops (classify d w)).
Proof.
  intros H. unfold classify. rewrite H. destruct w as [tr ro pr rr sr bw].
  destruct rr as [|[e|] rr], (4 <=? d)%float, sr as [|[e'|] sr]; cbn; auto.
Qed.

(** C1.  Classifying an accumulated duration [d]: if [d >= 2] the reboot
    command is run; if [d >= 4] then, the reboot command having returned,
    exactly the reboot command and after it the power-off command are run,
    on the same release; and the condition [d >= 2 || d <= 3] holds of
    every non-negative [d]. *)
Theorem reboot_from_2_both_from_4 (d : float64) (w : world) :
  ((2 <=? d)%float = true -> In (Run "reboot" []) (ops (classify d w))) /\
  ((4 <=? d)%float = true ->
   forall r rs, reboot_runs w = r :: rs ->
     runs_started (ops (classify d w)) = [("reboot", []); ("shutdown", ["now"])]) /\
  ((0 <=? d)%float = true -> (2 <=? d)%float || (d <=? 3)%float = true).
Proof.
  split; [|split].
  - intros H2. apply classify_runs_reboot. now rewrite H2.
  - intros H4 r rs Hr.
    rewrite (classify_ops d w r rs Hr), runs_started_app.
    rewrite (reboot_condition_not_nan d) by (apply (leb_true_not_nan _ _ H4)).
    rewrite H4. cbn [runs_started flat_map app].
    change (flat_map _ ?t) with (runs_started t).
    rewrite runs_started_report. cbn [app]. do 2 f_equal.
    destruct (shutdown_runs w); [reflexivity|apply runs_started_report].
  - intros H0. apply reboot_condition_not_nan. apply (leb_true_not_nan _ _ H0).
Qed.

Lemma reboot_from_2_both_from_4_witness :
  let w := mkWorld [] [] [] [None] [None] [] in
  In (Run "reboot" []) (ops (classify (pulse_after 19) w)) /\
  runs_started (ops (classify (pulse_after 39) w)) =
    [("reboot", []); ("shutdown", ["now"])] /\
  ((2 <=? pulse_after 2) || (pulse_after 2 <=? 3))%float = true.
Proof.
  intros w. split; [|split].
  - apply (reboot_from_2_both_from_4 (pulse_after 19) w). now vm_compute.
  - apply (reboot_from_2_both_from_4 (pulse_after 39) w) with (r := None) (rs := []);
      [now vm_compute|reflexivity].
  - apply (reboot_from_2_both_from_4 (pulse_after 2) w). now vm_compute.
Defined.

(** C10.  An iteration of the watcher runs the reboot command whatever the
    number [T] of high polls.  With no press at all ([T = 0]) the
    accumulator still holds its initial value 0.1, which satisfies
    [pulseTime >= 2 || pulseTime <= 3], and the iteration, its reboot
    command returning [r], runs that command and no other. *)
Theorem reboot_on_every_iteration (T : nat) (w : world) (rest : list State) :
  pin_reads w = repeat High T ++ Low :: rest ->
  In (Run "reboot" []) (ops (watchShutdownButton_body w)) /\
  (T = O ->
   snd (pulse_loop (pin_reads w) 100 0.1%float 0.1%float) = Some (0.1%float, rest) /\
   ((2 <=? 0.1) || (0.1 <=? 3))%float = true /\
   forall r rs, reboot_runs w = r :: rs ->
     ops (watchShutdownButton_body w) =
       [Detect shutdownPin RiseEdge; Sleep 100; Read shutdownPin; Run "reboot" []]
       ++ report r).
Proof.
  intros Hp.
  rewrite (watchShutdownButton_body_ops T w rest Hp).
  set (w' := mkWorld _ _ _ _ _ _).
  split.
  - right. right. apply in_or_app. right. apply classify_runs_reboot.
    apply reboot_condition_not_nan, sf_nonneg_not_nan, pulse_after_nonneg.
  - intros ->. split; [now rewrite Hp|]. split; [now vm_compute|].
    intros r rs Hr.
    assert (Hr' : reboot_runs w' = r :: rs) by exact Hr.
    rewrite (classify_ops _ w' r rs Hr').
    change ((2 <=? pulse_after 0) || (pulse_after 0 <=? 3))%float with true.
    change (4 <=? pulse_after 0)%float with false.
    unfold measuring. cbn [repeat List.concat app]. now rewrite app_nil_r.
Qed.

Lemma reboot_on_every_iteration_witness :
  In (Run "reboot" [])
     (ops (watchShutdownButton_body (mkWorld [] [] [High; High; Low] [None] [] []))) /\
  ops (watchShutdownButton_body (mkWorld [] [] [Low] [None] [] [])) =
  [Detect shutdownPin RiseEdge; Sleep 100; Read shutdownPin; Run "reboot" []].
Proof.
  split.
  - apply (reboot_on_every_iteration 2 (mkWorld [] [] [High; High; Low] [None] [] []) []).
    reflexivity.
  - destruct (reboot_on_every_iteration O (mkWorld [] [] [Low] [None] [] []) [] eq_refl)
      as [_ H].
    destruct (H eq_refl) as (_ & _ & E). exact (E None [] eq_refl).
Defined.

(** A press held for 25 ticks is measured as 2.600000000000001 and runs the
    reboot command alone; one held for 39 ticks runs both commands. *)
Example press_of_25_ticks :
  let w := mkWorld [] [] (repeat High 25 ++ [Low]) [None] [None] [] in
  snd (pulse_loop (pin_reads w) 100 0.1%float 0.1%float) =
    Some (2.600000000000001%float, []) /\
  runs_started (ops (watchShutdownButton_body w)) = [("reboot", [])].
Proof. split; now vm_compute. Qed.

Example press_of_39_ticks :
  let w := mkWorld [] [] (repeat High 39 ++ [Low]) [None] [None] [] in
  runs_started (ops (watchShutdownButton_body w)) =
    [("reboot", []); ("shutdown", ["now"])].
Proof. now vm_compute. Qed.

(** ** Supervisor *)

Lemma Manage_select (p : process) (w : world) :
  enters_control_loop p w ->
  ops (Manage p w) =
    startup_ops ++
    match arrivals p with
    | [] => []
    | OsInterrupt killSignal :: _ =>
        [Println stdlog [PStr "Got signal: "; PSig killSignal]; Cancel]
    | ErrChannel _ :: _ => [Cancel]
    end /\
  option_map fst (snd (Manage p w)) =
    match arrivals p with
    | [] => None
    | OsInterrupt _ :: _ => Some ("Process finished", None)
    | ErrChannel err :: _ => Some ("failed", err)
    end.
Proof.
  intros (Hargs & _ & Hbus & Hgpio).
  unfold Manage.
  assert (Ha : match os_Args p with _ :: _ :: _ => False | _ => True end).
  { destruct (os_Args p) as [|a [|b l]]; cbn in Hargs; [exact I|exact I|lia]. }
  destruct (rpio_opens w) as [|o os] eqn:Eo; [discriminate|].
  injection Hgpio as ->.
  assert (Hopen : rpio_Open w =
            ([RpioOpen], Some (None, mkWorld (temp_runs w) os (pin_reads w)
                                 (reboot_runs w) (shutdown_runs w) (bus_writes w)))).
  { unfold rpio_Open, bind, emit, next_rpio_open. now rewrite Eo. }
  assert (E : forall k : go_error -> M (string * go_error),
             bind rpio_Open k w = ([RpioOpen] ++ fst (k None _), snd (k None _)))
    by (intros k; apply (bind_done _ _ _ _ _ _ Hopen)).
  destruct (os_Args p) as [|a [|b l]]; try contradiction;
    rewrite E; rewrite Hbus; unfold bind, emit, ret, blocked, ops;
    destruct (arrivals p) as [|[s|err] more]; cbn; auto.
Qed.

(** The exit status and the operations of [main] on an interrupt. *)
Lemma main_interrupted (p : process) (w : world) (s : string) (more : list arrival) :
  enters_control_loop p w ->
  arrivals p = OsInterrupt s :: more ->
  ops (main p w) =
    startup_ops ++
    [Println stdlog [PStr "Got signal: "; PSig s]; Cancel;
     Println stdlog [PStr "Process finished"]] /\
  option_map fst (snd (main p w)) = Some 0.
Proof.
  intros He Ha. destruct (Manage_select p w He) as [Ho Hr].
  rewrite Ha in Ho, Hr. unfold main. destruct He as (_ & -> & _ & _).
  unfold bind, ops in *. destruct (Manage p w) as [t [[[st err] w']|]];
    cbn in Ho, Hr; [|discriminate].
  injection Hr as -> ->. subst t. cbn. auto.
Qed.

(** The exit status and the operations of [main] on a value received from
    [errChannel]. *)
Lemma main_failed (p : process) (w : world) (err : go_error) (more : list arrival) :
  enters_control_loop p w ->
  arrivals p = ErrChannel err :: more ->
  ops (main p w) =
    startup_ops ++ Cancel ::
    match err with
    | Some _ => [Println errlog [PStr "failed"; PStr (String "010" "Error: "); PErr err];
                 Exit 1]
    | None => [Println stdlog [PStr "failed"]]
    end /\
  option_map fst (snd (main p w)) = Some (match err with Some _ => 1 | None => 0 end).
Proof.
  intros He Ha. destruct (Manage_select p w He) as [Ho Hr].
  rewrite Ha in Ho, Hr. unfold main. destruct He as (_ & -> & _ & _).
  unfold bind, ops in *. destruct (Manage p w) as [t [[[st e] w']|]];
    cbn in Ho, Hr; [|discriminate].
  injection Hr as -> ->. subst t. destruct err; cbn; auto.
Qed.

(** ** Failures of the power commands cause no further runs *)

Lemma same_runs_ret {A} (a : A) : same_runs (ret a).
Proof. intros w. cbn. auto. Qed.

Lemma same_runs_emit (e : event) : same_runs (emit e).
Proof. intros w. cbn. auto. Qed.

Lemma same_runs_bind {A B} (m : M A) (k : A -> M B) :
  same_runs m -> (forall a, same_runs (k a)) -> same_runs (bind m k).
Proof.
  intros Hm Hk w. specialize (Hm w). unfold bind, ops in *.
  destruct (m w) as [t1 [[a1 w1]|]], (m (all_succeed w)) as [t2 [[a2 w2]|]];
    cbn [fst snd] in *; destruct Hm as [Ht Hw]; try contradiction.
  - destruct Hw as [-> ->]. specialize (Hk a2 w1).
    destruct (k a2 w1) as [t1' o1], (k a2 (all_succeed w1)) as [t2' o2].
    cbn [fst snd] in *. destruct Hk as [Ht' Ho]. split; [|exact Ho].
    rewrite !runs_started_app. unfold ops in Ht'. cbn [fst] in Ht'. congruence.
  - auto.
Qed.

Lemma same_runs_measure (sleepTime : Z) (tick0 p : float64) :
  same_runs (measure sleepTime tick0 p).
Proof.
  intros [tr ro pr rr sr bw]. unfold measure, all_succeed. cbn.
  destruct (pulse_loop pr sleepTime tick0 p) as [t [[q rest]|]]; cbn; auto.
Qed.

Lemma same_runs_classify (d : float64) : same_runs (classify d).
Proof.
  intros [tr ro pr rr sr bw]. unfold classify.
  destruct ((2 <=? d)%float || (d <=? 3)%float), (4 <=? d)%float;
    destruct rr as [|[e|] rr], sr as [|[e'|] sr]; cbn; auto.
Qed.

Lemma same_runs_body : same_runs watchShutdownButton_body.
Proof.
  unfold watchShutdownButton_body. cbv zeta.
  apply same_runs_bind; [apply same_runs_emit|intros _].
  apply same_runs_bind; [apply same_runs_emit|intros _].
  apply same_runs_bind; [apply same_runs_measure|intros pulseTime].
  apply same_runs_bind; [apply same_runs_classify|intros _].
  apply same_runs_ret.
Qed.

Lemma same_runs_loop (dones : list bool) : same_runs (watchShutdownButton_loop dones).
Proof.
  unfold watchShutdownButton_loop.
  induction dones as [|[] dones IH]; cbn [for_select_default].
  - intros w. cbn. auto.
  - apply same_runs_emit.
  - apply same_runs_bind; [apply same_runs_body|].
    intros []; [exact IH|apply same_runs_ret].
Qed.

(** C7.  When the reboot command or the power-off command returns an error
    [e], the watcher sends [e] on the error channel right after the run;
    the commands it runs, over the whole loop, are the same as when every
    command succeeds (no run is repeated because of a failure); and the
    supervisor that receives [e] cancels, logs [e] and exits with status 1. *)
Theorem power_action_error_forwarded
        (d : float64) (w : world) (e : error) (r : go_error) (rs ss : list go_error) :
  reboot_runs w = r :: rs ->
  ((2 <=? d)%float || (d <=? 3)%float = true -> r = Some e ->
   exists t, ops (classify d w) = Run "reboot" [] :: SendErr (Some e) :: t) /\
  ((4 <=? d)%float = true -> shutdown_runs w = Some e :: ss ->
   exists t, ops (classify d w) = t ++ [Run "shutdown" ["now"]; SendErr (Some e)]) /\
  (forall dones w0,
     runs_started (ops (watchShutdownButton_loop dones w0)) =
     runs_started (ops (watchShutdownButton_loop dones (all_succeed w0)))) /\
  (forall p w0 more,
     enters_control_loop p w0 -> arrivals p = ErrChannel (Some e) :: more ->
     In Cancel (ops (main p w0)) /\
     In (Println errlog [PStr "failed"; PStr (String "010" "Error: "); PErr (Some e)])
        (ops (main p w0)) /\
     option_map fst (snd (main p w0)) = Some 1).
Proof.
  intros Hr. rewrite (classify_ops d w r rs Hr). split; [|split; [|split]].
  - intros -> ->. cbn [report app]. eauto.
  - intros H4 Hs. rewrite H4, Hs. cbn [report].
    exists (if (2 <=? d)%float || (d <=? 3)%float then Run "reboot" [] :: report r else []).
    reflexivity.
  - intros dones w0. apply (same_runs_loop dones w0).
  - intros p w0 more He Ha.
    destruct (main_failed p w0 (Some e) more He Ha) as [Ho Hx].
    rewrite Ho. split; [|split; [|exact Hx]].
    + apply in_or_app. right. now left.
    + apply in_or_app. right. right. now left.
Qed.

Lemma power_action_error_forwarded_witness :
  let w := mkWorld [] [] [] [Some "exit status 1"] [Some "exit status 1"] [] in
  (exists t, ops (classify (pulse_after 39) w) =
             Run "reboot" [] :: SendErr (Some "exit status 1") :: t) /\
  (exists t, ops (classify (pulse_after 39) w) =
             t ++ [Run "shutdown" ["now"]; SendErr (Some "exit status 1")]).
Proof.
  intros w.
  destruct (power_action_error_forwarded (pulse_after 39) w "exit status 1"
              (Some "exit status 1") [] [] eq_refl) as (H1 & H2 & _).
  split.
  - apply H1; [now vm_compute|reflexivity].
  - apply H2; [now vm_compute|reflexivity].
Defined.

(** ** Fan controller *)

Lemma PutUint32_100 : PutUint32 (make_bytes 4) 100 = Some [100; 0; 0; 0].
Proof. reflexivity. Qed.

Lemma handleTemperature_body_cold (temp : float64) (w : world) :
  (50 <? temp)%float = false -> handleTemperature_body temp w = ([], Some (tt, w)).
Proof. intros H. unfold handleTemperature_body. now rewrite H. Qed.

Lemma handleTemperature_body_hot
      (temp : float64) (w : world) (res : go_error) (ws : list go_error) :
  (50 <? temp)%float = true -> bus_writes w = res :: ws ->
  handleTemperature_body temp w =
  ([Write_block_data smbusFanAddress [100; 0; 0; 0]], Some (tt, set_bus_writes ws w)).
Proof.
  intros H Hw. unfold handleTemperature_body. rewrite H, PutUint32_100.
  unfold bus_Write_block_data, bind, emit, next_bus_write, ret. now rewrite Hw.
Qed.

Lemma handleTemperature_body_blocked (temp : float64) (w : world) :
  (50 <? temp)%float = true -> bus_writes w = [] ->
  handleTemperature_body temp w =
  ([Write_block_data smbusFanAddress [100; 0; 0; 0]], None).
Proof.
  intros H Hw. unfold handleTemperature_body. rewrite H, PutUint32_100.
  unfold bus_Write_block_data, bind, emit, next_bus_write, ret. now rewrite Hw.
Qed.

Lemma handleTemperature_body_ops (temp : float64) (w : world) :
  ops (handleTemperature_body temp w) = fan_response temp.
Proof.
  unfold fan_response. destruct (50 <? temp)%float eqn:H.
  - destruct (bus_writes w) as [|res ws] eqn:Hw.
    + now rewrite handleTemperature_body_blocked.
    + now rewrite (handleTemperature_body_hot temp w res ws).
  - now rewrite handleTemperature_body_cold.
Qed.

(** The controller over the readings [rs], every bus write returning. *)
Lemma handleTemperature_readings (rs : list float64) (sel : list selected) (w : world) :
  (List.length (hot rs) <= List.length (bus_writes w))%nat ->
  handleTemperature (map Received rs ++ sel) w =
  after (flat_map fan_response rs)
        (handleTemperature sel
           (set_bus_writes (skipn (List.length (hot rs)) (bus_writes w)) w)).
Proof.
  revert w. induction rs as [|r rs IH]; intros w Hlen.
  - cbn [map app flat_map hot filter List.length skipn]. unfold after.
    destruct w. cbn. now destruct (handleTemperature sel _).
  - cbn [map app handleTemperature flat_map]. unfold hot in *. cbn [filter] in *.
    unfold fan_response at 1.
    destruct (50 <? r)%float eqn:H.
    + destruct (bus_writes w) as [|res ws] eqn:Hw; [cbn in Hlen; lia|].
      unfold bind. rewrite (handleTemperature_body_hot r w res ws H Hw).
      rewrite IH by (cbn in *; lia). unfold after. cbn. reflexivity.
    + unfold bind. rewrite (handleTemperature_body_cold r w H).
      rewrite IH by exact Hlen. unfold after. cbn. reflexivity.
Qed.

Lemma always_ret {A} (P : event -> Prop) (a : A) : always P (ret a).
Proof. intros w. constructor. Qed.

Lemma always_blocked {A} (P : event -> Prop) : always P (@blocked A).
Proof. intros w. constructor. Qed.

Lemma always_emit (P : event -> Prop) (e : event) : P e -> always P (emit e).
Proof. intros H w. repeat constructor. exact H. Qed.

Lemma always_bind {A B} (P : event -> Prop) (m : M A) (k : A -> M B) :
  always P m -> (forall a, always P (k a)) -> always P (bind m k).
Proof.
  intros Hm Hk w. specialize (Hm w). unfold bind, ops in *.
  destruct (m w) as [t [[a w']|]]; cbn [fst] in *; [|exact Hm].
  specialize (Hk a w'). destruct (k a w') as [t' r]. cbn [fst] in *.
  apply Forall_app. now split.
Qed.

Lemma always_for_select_default (P : event -> Prop) (dones : list bool)
      (onDone : M unit) (body : M ctl) :
  always P onDone -> always P body -> always P (for_select_default dones onDone body).
Proof.
  intros Hd Hb. induction dones as [|[] dones IH]; cbn [for_select_default].
  - apply always_blocked.
  - exact Hd.
  - apply always_bind; [exact Hb|]. intros []; [exact IH|apply always_ret].
Qed.

Lemma always_handleTemperature_body (P : event -> Prop) (temp : float64) :
  P (Write_block_data smbusFanAddress [100; 0; 0; 0]) ->
  always P (handleTemperature_body temp).
Proof.
  intros H w. rewrite handleTemperature_body_ops. unfold fan_response.
  destruct (50 <? temp)%float; repeat constructor. exact H.
Qed.

Lemma always_handleTemperature (P : event -> Prop) (sel : list selected) :
  P (Write_block_data smbusFanAddress [100; 0; 0; 0]) ->
  P (Println stdlog [PStr "temperature-handler: cancellation requested"]) ->
  always P (handleTemperature sel).
Proof.
  intros Hw Hp. induction sel as [|[|temp] sel IH]; cbn [handleTemperature].
  - apply always_blocked.
  - now apply always_emit.
  - apply always_bind; [now apply always_handleTemperature_body|]. intros _. exact IH.
Qed.

Lemma errs_sent_none (t : trace) :
  Forall (fun e => match e with SendErr _ => False | _ => True end) t ->
  errs_sent t = [].
Proof.
  induction 1 as [|e t He _ IH]; [reflexivity|].
  unfold errs_sent in *. cbn [flat_map]. rewrite IH. now destruct e.
Qed.

(** C2.  A reading above 50 makes the controller issue one block write,
    whose payload is the four little-endian bytes of the unsigned integer
    100, and go on with the next reading; a reading of at most 50 makes it go
    on with the next reading at once.  Over readings [rs] it issues one
    speed-100 write per reading above 50 and no other. *)
Theorem fan_command_per_reading
        (r : float64) (sel : list selected) (w : world) :
  (forall res ws, (50 <? r)%float = true -> bus_writes w = res :: ws ->
     handleTemperature (Received r :: sel) w =
     after [Write_block_data smbusFanAddress [100; 0; 0; 0]]
           (handleTemperature sel (set_bus_writes ws w))) /\
  ((r <=? 50)%float = true ->
     handleTemperature (Received r :: sel) w = handleTemperature sel w) /\
  (PutUint32 (make_bytes 4) 100 = Some [100; 0; 0; 0] /\
   Uint32 [100; 0; 0; 0] = Some 100) /\
  (forall rs, (List.length (hot rs) <= List.length (bus_writes w))%nat ->
     writes_issued (ops (handleTemperature (map Received rs) w)) =
     map (fun _ => speed_100) (hot rs)).
Proof.
  split; [|split; [|split]].
  - intros res ws Hr Hw. cbn [handleTemperature]. unfold bind, after.
    rewrite (handleTemperature_body_hot r w res ws Hr Hw).
    now destruct (handleTemperature sel _).
  - intros Hr. apply leb_ltb_false in Hr. cbn [handleTemperature]. unfold bind.
    rewrite (handleTemperature_body_cold r w Hr).
    now destruct (handleTemperature sel w).
  - split; reflexivity.
  - intros rs Hlen.
    pose proof (handleTemperature_readings rs [] w Hlen) as E.
    rewrite app_nil_r in E. rewrite E. unfold after, ops. cbn [fst handleTemperature blocked].
    rewrite app_nil_r. clear. induction rs as [|x rs IH]; [reflexivity|].
    cbn [flat_map]. unfold writes_issued in *. rewrite flat_map_app, IH.
    unfold hot, fan_response. cbn [filter]. now destruct (50 <? x)%float.
Qed.

Lemma fan_command_per_reading_witness :
  let w := mkWorld [] [] [] [] [] [None; None; None] in
  handleTemperature [Received 55%float] w =
    ([Write_block_data smbusFanAddress [100; 0; 0; 0]], None) /\
  handleTemperature [Received 50%float] w = ([], None) /\
  writes_issued (ops (handleTemperature (map Received [30; 55; 40]%float) w)) =
    [speed_100].
Proof.
  intros w.
  destruct (fan_command_per_reading 55%float [] w) as (H1 & _ & _ & _).
  destruct (fan_command_per_reading 50%float [] w) as (_ & H2 & _ & H4).
  split; [|split].
  - apply (H1 None [None; None]); [now vm_compute|reflexivity].
  - apply H2. now vm_compute.
  - apply (H4 [30; 55; 40]%float). vm_compute. lia.
Defined.

(** C5.  Whatever the controller receives, in whatever world, each of its
    operations is the block write of the bytes of 100 to the fan address or
    the log line of its cancellation: no other command is ever issued. *)
Theorem fan_only_raised (sel : list selected) (w : world) :
  Forall (fun e =>
            e = Write_block_data smbusFanAddress [100; 0; 0; 0] \/
            e = Println stdlog [PStr "temperature-handler: cancellation requested"])
         (ops (handleTemperature sel w)) /\
  Forall (fun c => c = speed_100) (writes_issued (ops (handleTemperature sel w))) /\
  Uint32 (snd speed_100) = Some 100.
Proof.
  assert (H : Forall (fun e =>
            e = Write_block_data smbusFanAddress [100; 0; 0; 0] \/
            e = Println stdlog [PStr "temperature-handler: cancellation requested"])
         (ops (handleTemperature sel w))).
  { apply always_handleTemperature; auto. }
  split; [exact H|]. split; [|reflexivity].
  induction H as [|e t He _ IH]; [constructor|].
  unfold writes_issued in *. cbn [flat_map].
  destruct He as [-> | ->]; cbn [app]; [constructor; [reflexivity|exact IH]|exact IH].
Qed.

Lemma hot_length_all_succeed (rs : list float64) (w : world) :
  (List.length (hot rs) <= List.length (bus_writes w))%nat ->
  (List.length (hot rs) <= List.length (bus_writes (all_succeed w)))%nat.
Proof. unfold all_succeed. cbn [bus_writes]. now rewrite length_map. Qed.

(** C6.  Whatever the bus writes return, failures included, the controller
    sends nothing on the error channel, does not return, and handles every
    reading as it would had every write succeeded: its operations over the
    readings [rs] are the responses to each reading in turn. *)
Theorem bus_write_error_discarded (rs : list float64) (w : world) :
  (List.length (hot rs) <= List.length (bus_writes w))%nat ->
  let run := handleTemperature (map Received rs) w in
  errs_sent (ops run) = [] /\
  returned run = false /\
  ops run = flat_map fan_response rs /\
  ops run = ops (handleTemperature (map Received rs) (all_succeed w)).
Proof.
  intros Hlen run.
  assert (E : forall w', (List.length (hot rs) <= List.length (bus_writes w'))%nat ->
            handleTemperature (map Received rs) w' = (flat_map fan_response rs, None)).
  { intros w' H. pose proof (handleTemperature_readings rs [] w' H) as E.
    rewrite app_nil_r in E. rewrite E. unfold after.
    cbn [handleTemperature blocked fst snd]. now rewrite app_nil_r. }
  subst run. rewrite (E (all_succeed w) (hot_length_all_succeed rs w Hlen)).
  rewrite (E w Hlen). unfold ops, returned. cbn [fst snd]. repeat split.
  apply errs_sent_none. clear. induction rs as [|r rs IH]; [constructor|].
  cbn [flat_map]. apply Forall_app. split; [|exact IH].
  unfold fan_response. destruct (50 <? r)%float; repeat constructor.
Qed.

Lemma bus_write_error_discarded_witness :
  let w := mkWorld [] [] [] [] []
                   [Some "remote I/O error"; Some "remote I/O error"] in
  let run := handleTemperature (map Received [55; 30; 60]%float) w in
  errs_sent (ops run) = [] /\
  returned run = false /\
  ops run = [Write_block_data smbusFanAddress [100; 0; 0; 0];
             Write_block_data smbusFanAddress [100; 0; 0; 0]].
Proof.
  intros w run.
  destruct (bus_write_error_discarded [55; 30; 60]%float w) as (H1 & H2 & H3 & _).
  - vm_compute. lia.
  - split; [exact H1|]. split; [exact H2|exact H3].
Defined.

(** ** Temperature poller *)

Section Poller.

Variable ParseFloat : string -> float64 * go_error.

Lemma getCurrentTemperature_returns (w : world) (o : cmd_outcome) (os : list cmd_outcome) :
  temp_runs w = o :: os ->
  getCurrentTemperature ParseFloat w =
  ([Run "vcgencmd" ["measure_temp"]],
   Some (read_result ParseFloat o, set_temp_runs os w)).
Proof.
  intros H. unfold read_result, getCurrentTemperature, bind, emit, next_temp_run.
  rewrite H. cbn [temp_runs fst snd app].
  destruct (cmd_err o); [reflexivity|].
  destruct (ParseFloat _) as [x [e|]]; reflexivity.
Qed.

(** An iteration whose read succeeds. *)
Lemma monitorTemperature_body_ok
      (w : world) (o : cmd_outcome) (os : list cmd_outcome) (v : float64) :
  temp_runs w = o :: os -> read_result ParseFloat o = (v, None) ->
  monitorTemperature_body ParseFloat w = (poll_ok v, Some (Continue, set_temp_runs os w)).
Proof.
  intros H Hv. unfold monitorTemperature_body, bind.
  rewrite (getCurrentTemperature_returns w o os H), Hv. reflexivity.
Qed.

(** An iteration whose read fails. *)
Lemma monitorTemperature_body_failed
      (w : world) (o : cmd_outcome) (os : list cmd_outcome) (x : float64) (e : error) :
  temp_runs w = o :: os -> read_result ParseFloat o = (x, Some e) ->
  monitorTemperature_body ParseFloat w =
  ([Run "vcgencmd" ["measure_temp"]; SendErr (Some e)],
   Some (Return, set_temp_runs os w)).
Proof.
  intros H Hv. unfold monitorTemperature_body, bind.
  rewrite (getCurrentTemperature_returns w o os H), Hv. reflexivity.
Qed.

(** The poller over successful reads, while the context is live. *)
Lemma monitorTemperature_reads
      (outs : list cmd_outcome) (vs : list float64) :
  Forall2 (fun o v => read_result ParseFloat o = (v, None)) outs vs ->
  forall (rest : list cmd_outcome) (dones : list bool) (w : world),
    temp_runs w = outs ++ rest ->
    monitorTemperature ParseFloat (repeat false (List.length outs) ++ dones) w =
    after (flat_map poll_ok vs)
          (monitorTemperature ParseFloat dones (set_temp_runs rest w)).
Proof.
  induction 1 as [|o v outs vs Hov _ IH]; intros rest dones w Hw.
  - cbn [List.length repeat app flat_map]. unfold after.
    cbn [app] in Hw. destruct w as [tr ro pr rr sr bw]. cbn in Hw. subst tr.
    unfold set_temp_runs. cbn [rpio_opens pin_reads reboot_runs shutdown_runs bus_writes].
    now destruct (monitorTemperature _ _ _).
  - cbn [List.length repeat app flat_map].
    unfold monitorTemperature in *. cbn [for_select_default].
    unfold bind at 1.
    rewrite (monitorTemperature_body_ok w o (outs ++ rest) v Hw Hov).
    rewrite (IH rest dones (set_temp_runs (outs ++ rest) w) eq_refl).
    unfold after. cbn [fst snd]. now rewrite app_assoc.
Qed.

Lemma temps_sent_polls (vs : list float64) : temps_sent (flat_map poll_ok vs) = vs.
Proof.
  induction vs as [|v vs IH]; [reflexivity|].
  cbn [flat_map]. unfold temps_sent in *. rewrite flat_map_app, IH. reflexivity.
Qed.

Lemma errs_sent_polls (vs : list float64) : errs_sent (flat_map poll_ok vs) = [].
Proof.
  induction vs as [|v vs IH]; [reflexivity|].
  cbn [flat_map]. rewrite errs_sent_app, IH. reflexivity.
Qed.

Lemma runs_started_polls (vs : list float64) :
  runs_started (flat_map poll_ok vs) =
  repeat ("vcgencmd", ["measure_temp"]) (List.length vs).
Proof.
  induction vs as [|v vs IH]; [reflexivity|].
  cbn [flat_map]. rewrite runs_started_app, IH. reflexivity.
Qed.

(** C3.  While its context is live: over [N] successful reads the poller
    sends exactly the [N] values read, in order, and no error; when the
    reads [outs] succeed and the next one fails with [e], it sends the
    values of [outs], then [e] once on the error channel, and returns at
    once: it has run the command once per read and leaves the later
    answers of the sensor unread, whatever polls would follow. *)
Theorem poller_forwards_reads_until_failure
        (outs : list cmd_outcome) (vs : list float64) (w : world) :
  Forall2 (fun o v => read_result ParseFloat o = (v, None)) outs vs ->
  (temp_runs w = outs ->
   let run := monitorTemperature ParseFloat (repeat false (List.length outs)) w in
   temps_sent (ops run) = vs /\ errs_sent (ops run) = [] /\ returned run = false) /\
  (forall bad x e rest more,
     temp_runs w = outs ++ bad :: rest ->
     read_result ParseFloat bad = (x, Some e) ->
     let run := monitorTemperature ParseFloat
                  (repeat false (List.length outs) ++ false :: more) w in
     temps_sent (ops run) = vs /\
     errs_sent (ops run) = [Some e] /\
     runs_started (ops run) =
       repeat ("vcgencmd", ["measure_temp"]) (S (List.length outs)) /\
     snd run = Some (tt, set_temp_runs rest w)).
Proof.
  intros Hok. split.
  - intros Hw run. subst run.
    pose proof (monitorTemperature_reads outs vs Hok [] [] w) as E.
    rewrite !app_nil_r in E. rewrite (E Hw). unfold after, ops, returned.
    cbn [monitorTemperature for_select_default blocked fst snd].
    rewrite app_nil_r, temps_sent_polls, errs_sent_polls. auto.
  - intros bad x e rest more Hw Hbad run. subst run.
    assert (Ht : monitorTemperature ParseFloat (false :: more)
                   (set_temp_runs (bad :: rest) w) =
                 ([Run "vcgencmd" ["measure_temp"]; SendErr (Some e)],
                  Some (tt, set_temp_runs rest w))).
    { unfold monitorTemperature. cbn [for_select_default]. unfold bind.
      now rewrite (monitorTemperature_body_failed (set_temp_runs (bad :: rest) w)
                     bad rest x e eq_refl Hbad). }
    rewrite (monitorTemperature_reads outs vs Hok (bad :: rest) (false :: more) w Hw).
    rewrite Ht. unfold after, ops. cbn [fst snd].
    unfold temps_sent. rewrite flat_map_app. fold (temps_sent (flat_map poll_ok vs)).
    rewrite temps_sent_polls, errs_sent_app, errs_sent_polls, runs_started_app,
      runs_started_polls.
    cbn [flat_map errs_sent runs_started app]. rewrite app_nil_r.
    rewrite (Forall2_length Hok).
    repeat split. cbn [repeat]. now rewrite repeat_cons.
Qed.

End Poller.

Lemma poller_forwards_reads_until_failure_witness :
  let ok s := mkOutcome None s in
  let w := mkWorld [ok "temp=30.0'C"; ok "temp=55.0'C";
                    mkOutcome (Some "exit status 255") ""; ok "temp=40.0'C"]
                   [] [] [] [] [] in
  let run := monitorTemperature sample_ParseFloat [false; false; false; false] w in
  temps_sent (ops run) = [30; 55]%float /\
  errs_sent (ops run) = [Some "exit status 255"] /\
  runs_started (ops run) = repeat ("vcgencmd", ["measure_temp"]) 3 /\
  snd run = Some (tt, set_temp_runs [ok "temp=40.0'C"] w).
Proof.
  intros ok w run.
  assert (Hok : Forall2 (fun o v => read_result sample_ParseFloat o = (v, None))
                        [ok "temp=30.0'C"; ok "temp=55.0'C"] [30; 55]%float).
  { repeat constructor. }
  destruct (poller_forwards_reads_until_failure sample_ParseFloat _ _ w Hok) as [_ H].
  exact (H (mkOutcome (Some "exit status 255") "") 0%float "exit status 255"
           [ok "temp=40.0'C"] [false] eq_refl eq_refl).
Defined.

(** ** What the workers send on the error channel is never nil *)

Lemma not_nil_getCurrentTemperature (ParseFloat : string -> float64 * go_error) :
  always not_nil_send (getCurrentTemperature ParseFloat).
Proof.
  unfold getCurrentTemperature.
  apply always_bind; [apply always_emit; discriminate|intros _].
  apply always_bind.
  - intros w. unfold ops, next_temp_run. destruct (temp_runs w); constructor.
  - intros o. destruct (cmd_err o); [apply always_ret|].
    destruct (ParseFloat _) as [x [e|]]; apply always_ret.
Qed.

Lemma not_nil_monitorTemperature (ParseFloat : string -> float64 * go_error)
      (dones : list bool) :
  always not_nil_send (monitorTemperature ParseFloat dones).
Proof.
  apply always_for_select_default; [apply always_emit; discriminate|].
  unfold monitorTemperature_body.
  apply always_bind; [apply not_nil_getCurrentTemperature|].
  intros [temp [e|]].
  - apply always_bind; [apply always_emit; discriminate|intros _; apply always_ret].
  - apply always_bind; [apply always_emit; discriminate|intros _].
    apply always_bind; [apply always_emit; discriminate|intros _; apply always_ret].
Qed.

Lemma not_nil_classify (d : float64) : always not_nil_send (classify d).
Proof.
  unfold classify. apply always_bind; [|intros _].
  - destruct ((2 <=? d)%float || (d <=? 3)%float); [|apply always_ret].
    apply always_bind.
    + unfold rebootCommand_Run.
      apply always_bind; [apply always_emit; discriminate|intros _].
      intros w. unfold ops, next_reboot_run. destruct (reboot_runs w); constructor.
    + intros [e|]; [apply always_emit; discriminate|apply always_ret].
  - destruct (4 <=? d)%float; [|apply always_ret].
    apply always_bind.
    + unfold shutdownCommand_Run.
      apply always_bind; [apply always_emit; discriminate|intros _].
      intros w. unfold ops, next_shutdown_run. destruct (shutdown_runs w); constructor.
    + intros [e|]; [apply always_emit; discriminate|apply always_ret].
Qed.

Lemma always_measure (P : event -> Prop) (sleepTime : Z) (tick0 p : float64) :
  P (Read shutdownPin) -> P (Sleep sleepTime) -> always P (measure sleepTime tick0 p).
Proof.
  intros Hr Hs w. unfold ops, measure.
  assert (H : forall reads q, Forall P (fst (pulse_loop reads sleepTime tick0 q))).
  { induction reads as [|[] reads IH]; intros q; cbn [pulse_loop].
    - repeat constructor; exact Hr.
    - repeat constructor; exact Hr.
    - specialize (IH (q + tick0)%float).
      destruct (pulse_loop reads sleepTime tick0 (q + tick0)%float) as [t r].
      cbn [fst] in *. repeat constructor; assumption. }
  specialize (H (pin_reads w) p).
  destruct (pulse_loop (pin_reads w) sleepTime tick0 p) as [t [[q rest]|]]; exact H.
Qed.

Lemma not_nil_watchShutdownButton (dones : list bool) :
  always not_nil_send (watchShutdownButton dones).
Proof.
  unfold watchShutdownButton. apply always_bind.
  - unfold rpio_Open. apply always_bind; [apply always_emit; discriminate|intros _].
    intros w. unfold ops, next_rpio_open. destruct (rpio_opens w); constructor.
  - intros [e|]; [apply always_emit; discriminate|].
    apply always_bind; [apply always_emit; discriminate|intros _].
    apply always_bind; [apply always_emit; discriminate|intros _].
    apply always_for_select_default; [apply always_emit; discriminate|].
    unfold watchShutdownButton_body. cbv zeta.
    apply always_bind; [apply always_emit; discriminate|intros _].
    apply always_bind; [apply always_emit; discriminate|intros _].
    apply always_bind; [apply always_measure; discriminate|intros pulseTime].
    apply always_bind; [apply not_nil_classify|intros _; apply always_ret].
Qed.

Lemma not_nil_handleTemperature (sel : list selected) :
  always not_nil_send (handleTemperature sel).
Proof. apply always_handleTemperature; discriminate. Qed.

Lemma main_waiting (p : process) (w : world) :
  enters_control_loop p w -> arrivals p = [] ->
  ops (main p w) = startup_ops /\ snd (main p w) = None.
Proof.
  intros He Ha. destruct (Manage_select p w He) as [Ho Hr].
  rewrite Ha in Ho, Hr. unfold main. destruct He as (_ & -> & _ & _).
  unfold bind, ops in *. destruct (Manage p w) as [t [[[st err] w']|]];
    cbn in Ho, Hr; [discriminate|].
  subst t. cbn. auto.
Qed.

(** C8.  Once the workers are started the supervisor waits: with nothing
    received the process neither cancels nor exits.  It acts on the first
    arrival alone, whatever arrives later: on a signal it logs the signal,
    cancels the context and the process ends with status 0; on an error
    sent by a worker, which is never nil, it cancels the context, logs the
    error on the error log and the process exits with status 1. *)
Theorem supervisor_first_arrival (p : process) (w : world) :
  enters_control_loop p w ->
  (arrivals p = [] -> ops (main p w) = startup_ops /\ snd (main p w) = None) /\
  (forall s more, arrivals p = OsInterrupt s :: more ->
     ops (main p w) =
       startup_ops ++
       [Println stdlog [PStr "Got signal: "; PSig s]; Cancel;
        Println stdlog [PStr "Process finished"]] /\
     option_map fst (snd (main p w)) = Some 0) /\
  (forall e more, arrivals p = ErrChannel (Some e) :: more ->
     ops (main p w) =
       startup_ops ++
       [Cancel;
        Println errlog [PStr "failed"; PStr (String "010" "Error: "); PErr (Some e)];
        Exit 1] /\
     option_map fst (snd (main p w)) = Some 1) /\
  (forall ParseFloat dones sel w0 err,
     In (SendErr err) (ops (monitorTemperature ParseFloat dones w0)) \/
     In (SendErr err) (ops (handleTemperature sel w0)) \/
     In (SendErr err) (ops (watchShutdownButton dones w0)) ->
     err <> None).
Proof.
  intros He. split; [|split; [|split]].
  - intros Ha. now apply main_waiting.
  - intros s more Ha. now apply (main_interrupted p w s more).
  - intros e more Ha. now apply (main_failed p w (Some e) more).
  - intros PF dones sel w0 err H Hnil. subst err.
    destruct H as [H|[H|H]].
    + pose proof (not_nil_monitorTemperature PF dones w0) as A.
      rewrite Forall_forall in A. now apply (A _ H).
    + pose proof (not_nil_handleTemperature sel w0) as A.
      rewrite Forall_forall in A. now apply (A _ H).
    + pose proof (not_nil_watchShutdownButton dones w0) as A.
      rewrite Forall_forall in A. now apply (A _ H).
Qed.

Lemma supervisor_first_arrival_witness :
  let w := mkWorld [] [None] [] [] [] [] in
  let p a := mkProcess ["argononepicontroller"] None
                       (fun _ => ("", None)) None a in
  option_map fst (snd (main (p [OsInterrupt "terminated"; ErrChannel (Some "x")]) w))
    = Some 0 /\
  option_map fst (snd (main (p [ErrChannel (Some "exit status 255");
                                OsInterrupt "terminated"]) w))
    = Some 1.
Proof.
  intros w p.
  assert (He : forall a, enters_control_loop (p a) w).
  { intros a. unfold enters_control_loop. cbn. repeat split; lia. }
  split.
  - destruct (supervisor_first_arrival (p [OsInterrupt "terminated"; ErrChannel (Some "x")])
                w (He _)) as (_ & H & _).
    apply (H "terminated" [ErrChannel (Some "x")] eq_refl).
  - destruct (supervisor_first_arrival
                (p [ErrChannel (Some "exit status 255"); OsInterrupt "terminated"])
                w (He _)) as (_ & _ & H & _).
    apply (H "exit status 255" [OsInterrupt "terminated"] eq_refl).
Defined.

(** ** Cancellation *)

Lemma temps_sent_app (t1 t2 : trace) :
  temps_sent (t1 ++ t2) = temps_sent t1 ++ temps_sent t2.
Proof. apply flat_map_app. Qed.

Lemma writes_issued_app (t1 t2 : trace) :
  writes_issued (t1 ++ t2) = writes_issued t1 ++ writes_issued t2.
Proof. apply flat_map_app. Qed.

(** A polled loop whose [n] first polls find the context live and whose
    next poll finds it done: after the [n] iterations, the log line at
    most. *)
Lemma cancelled_loop (l : logger) (line : list printed) (body : M ctl)
      (n : nat) (rest : list bool) (w : world) :
  let run := for_select_default (repeat false n ++ true :: rest)
                                (emit (Println l line)) body w in
  let before := iterations n body w in
  (exists tail, (tail = [] \/ tail = [Println l line]) /\
                ops run = ops before ++ tail) /\
  (forall t w', before = (t, Some (Continue, w')) ->
                run = (t ++ [Println l line], Some (tt, w'))).
Proof.
  intros run before. subst run before. rewrite for_select_default_cancelled.
  unfold bind, ops. destruct (iterations n body w) as [t [[[] w']|]]; cbn [fst snd].
  - split; [exists [Println l line]; auto|]. intros t0 w0 E. now inversion E.
  - split; [exists []; auto|]. intros t0 w0 E. inversion E.
  - split; [exists []; split; [auto|now rewrite app_nil_r]|]. intros t0 w0 E. inversion E.
Qed.

(** The controller picks the cancellation after the readings [rs]. *)
Lemma handleTemperature_cancelled (rs : list float64) (sel : list selected) (w : world) :
  exists tail,
    (tail = [] \/
     tail = [Println stdlog [PStr "temperature-handler: cancellation requested"]]) /\
    ops (handleTemperature (map Received rs ++ CtxDone :: sel) w) =
    ops (handleTemperature (map Received rs) w) ++ tail.
Proof.
  revert w. induction rs as [|r rs IH]; intros w.
  - eexists. split; [right; reflexivity|reflexivity].
  - cbn [map app handleTemperature]. unfold bind, ops.
    destruct (handleTemperature_body r w) as [t [[[] w']|]]; cbn [fst].
    + destruct (IH w') as (tail & Ht & E). exists tail. split; [exact Ht|].
      unfold ops in E.
      destruct (handleTemperature (map Received rs ++ CtxDone :: sel) w') as [t1 o1],
               (handleTemperature (map Received rs) w') as [t2 o2].
      cbn [fst] in *. rewrite E. now rewrite app_assoc.
    + exists []. split; [auto|now rewrite app_nil_r].
Qed.

(** C9.  A worker whose poll of the context, at the top of its loop, finds
    it done after [n] polls that found it live has run [n] iterations and
    then only logs and returns, whatever polls would follow: the poller
    sends no reading and no error beyond those of the [n] iterations, the
    watcher runs no command beyond theirs, and the controller that picks
    the cancellation issues no write beyond those for the readings before
    it. *)
Theorem cancellation_stops_workers (n : nat) (rest : list bool) (w : world) :
  (forall ParseFloat,
     let run := monitorTemperature ParseFloat (repeat false n ++ true :: rest) w in
     let before := iterations n (monitorTemperature_body ParseFloat) w in
     temps_sent (ops run) = temps_sent (ops before) /\
     errs_sent (ops run) = errs_sent (ops before) /\
     (forall t w', before = (t, Some (Continue, w')) ->
        run = (t ++ [Println stdlog [PStr "temperature-watch: cancellation requested"]],
               Some (tt, w')))) /\
  (let run := watchShutdownButton_loop (repeat false n ++ true :: rest) w in
   let before := iterations n watchShutdownButton_body w in
   runs_started (ops run) = runs_started (ops before) /\
   (forall t w', before = (t, Some (Continue, w')) ->
      run = (t ++ [Println stdlog [PStr "button-watch: cancellation requested"]],
             Some (tt, w')))) /\
  (forall rs sel,
     let run := handleTemperature (map Received rs ++ CtxDone :: sel) w in
     writes_issued (ops run) =
       writes_issued (ops (handleTemperature (map Received rs) w)) /\
     ((List.length (hot rs) <= List.length (bus_writes w))%nat ->
      run = (flat_map fan_response rs ++
             [Println stdlog [PStr "temperature-handler: cancellation requested"]],
             Some (tt, set_bus_writes (skipn (List.length (hot rs)) (bus_writes w)) w)))).
Proof.
  split; [|split].
  - intros PF run before. subst run before. unfold monitorTemperature.
    destruct (cancelled_loop stdlog [PStr "temperature-watch: cancellation requested"]
                (monitorTemperature_body PF) n rest w) as [(tail & Ht & E) H].
    rewrite E, temps_sent_app, errs_sent_app.
    repeat split; [| |exact H]; destruct Ht as [-> | ->]; cbn; now rewrite app_nil_r.
  - intros run before. subst run before. unfold watchShutdownButton_loop.
    destruct (cancelled_loop stdlog [PStr "button-watch: cancellation requested"]
                watchShutdownButton_body n rest w) as [(tail & Ht & E) H].
    rewrite E, runs_started_app.
    split; [|exact H]. destruct Ht as [-> | ->]; cbn; now rewrite app_nil_r.
  - intros rs sel run. subst run. split.
    + destruct (handleTemperature_cancelled rs sel w) as (tail & Ht & E).
      rewrite E, writes_issued_app.
      destruct Ht as [-> | ->]; cbn; now rewrite app_nil_r.
    + intros Hlen. rewrite (handleTemperature_readings rs (CtxDone :: sel) w Hlen).
      reflexivity.
Qed.

Lemma cancellation_stops_workers_witness :
  let w := mkWorld [mkOutcome None "temp=55.0'C"; mkOutcome None "temp=30.0'C"]
                   [] [Low; High; Low] [None; None] [] [None] in
  monitorTemperature sample_ParseFloat [false; true; false] w =
    (poll_ok 55%float ++ [Println stdlog [PStr "temperature-watch: cancellation requested"]],
     Some (tt, set_temp_runs [mkOutcome None "temp=30.0'C"] w)) /\
  handleTemperature [Received 55%float; CtxDone; Received 60%float] w =
    ([Write_block_data smbusFanAddress [100; 0; 0; 0];
      Println stdlog [PStr "temperature-handler: cancellation requested"]],
     Some (tt, set_bus_writes [] w)).
Proof.
  intros w.
  destruct (cancellation_stops_workers 1 [false] w) as (H1 & _ & H3).
  split.
  - destruct (H1 sample_ParseFloat) as (_ & _ & H). apply H. reflexivity.
  - destruct (H3 [55%float] [Received 60%float]) as (_ & H). apply H.
    vm_compute. lia.
Defined.

(** * Further properties of the program *)

(** ** Service subcommands and start-up *)

(** X1.  With a service subcommand the process touches no hardware and starts
    no worker: it calls the method of the daemon, logs the status it
    returns and exits with 1 exactly when the method returned an error.
    The arguments after the subcommand are ignored. *)
Theorem service_subcommand
        (p : process) (w : world) (a0 : string) (m : daemon_method) (rest : list string) :
  daemon_New p = None ->
  os_Args p = a0 :: method_name m :: rest ->
  main p w =
  match daemon_call p m with
  | (status, Some e) =>
      ([Println errlog [PStr status; PStr (String "010" "Error: "); PErr (Some e)];
        Exit 1], Some (1, w))
  | (status, None) => ([Println stdlog [PStr status]], Some (0, w))
  end.
Proof.
  intros Hd Ha. unfold main, Manage. rewrite Hd, Ha.
  destruct m; cbn [method_name String.eqb Ascii.eqb Bool.eqb]; cbn;
    match goal with |- context [daemon_call p ?x] =>
      destruct (daemon_call p x) as [st [e|]] end; reflexivity.
Qed.

Lemma service_subcommand_witness :
  let p := mkProcess ["argononepicontroller"; "status"; "--verbose"] None
             (fun m => match m with
                       | Status => ("Service is stopped", None)
                       | _ => ("", Some "permission denied")
                       end) (Some "no such device") [] in
  main p (mkWorld [] [] [] [] [] []) =
  ([Println stdlog [PStr "Service is stopped"]], Some (0, mkWorld [] [] [] [] [] [])).
Proof.
  intros p.
  exact (service_subcommand p (mkWorld [] [] [] [] [] []) "argononepicontroller"
           Status ["--verbose"] eq_refl eq_refl).
Defined.

(** X2.  A first argument that is none of the five subcommands makes the
    process log the usage line on the standard log and end with status 0,
    without touching the hardware or starting a worker. *)
Theorem unknown_subcommand
        (p : process) (w : world) (a0 command : string) (rest : list string) :
  daemon_New p = None ->
  os_Args p = a0 :: command :: rest ->
  (forall m, command <> method_name m) ->
  main p w = ([Println stdlog [PStr usage]], Some (0, w)).
Proof.
  intros Hd Ha Hm. unfold main, Manage. rewrite Hd, Ha.
  assert (E : forall m, String.eqb command (method_name m) = false)
    by (intros m; apply String.eqb_neq, Hm).
  pose proof (E Install) as E1. pose proof (E Remove) as E2.
  pose proof (E Start) as E3. pose proof (E Stop) as E4. pose proof (E Status) as E5.
  cbn [method_name] in *. rewrite E1, E2, E3, E4, E5. reflexivity.
Qed.

Lemma unknown_subcommand_witness :
  let p := mkProcess ["argononepicontroller"; "Install"] None
             (fun _ => ("", None)) None [] in
  main p (mkWorld [] [] [] [] [] []) =
  ([Println stdlog [PStr usage]], Some (0, mkWorld [] [] [] [] [] [])).
Proof.
  intros p.
  apply (unknown_subcommand p (mkWorld [] [] [] [] [] []) "argononepicontroller"
           "Install" []); [reflexivity|reflexivity|].
  intros m. destruct m; discriminate.
Defined.

(** X3.  Without a subcommand, a failure to open the GPIO or the bus ends the
    process with status 1 after one log line on the error log; no worker
    has been started and the context is not cancelled.  The bus is opened
    only after the GPIO has been. *)
Theorem startup_failure (p : process) (w : world) :
  (List.length (os_Args p) <= 1)%nat ->
  daemon_New p = None ->
  (forall e os, rpio_opens w = Some e :: os ->
     ops (main p w) =
       [RpioOpen;
        Println errlog [PStr "failed opening gpio"; PStr (String "010" "Error: ");
                        PErr (Some e)];
        Exit 1] /\
     option_map fst (snd (main p w)) = Some 1) /\
  (forall e os, rpio_opens w = None :: os -> smbus_New p = Some e ->
     ops (main p w) =
       [RpioOpen;
        Println errlog [PStr "failed opening smbus"; PStr (String "010" "Error: ");
                        PErr (Some e)];
        Exit 1] /\
     option_map fst (snd (main p w)) = Some 1).
Proof.
  intros Hargs Hd.
  assert (Ha : match os_Args p with _ :: _ :: _ => False | _ => True end).
  { destruct (os_Args p) as [|a [|b l]]; cbn in Hargs; [exact I|exact I|lia]. }
  split; intros e os Ho.
  - unfold main, Manage. rewrite Hd.
    destruct (os_Args p) as [|a [|b l]]; try contradiction;
      unfold rpio_Open, bind, emit, next_rpio_open, ret, ops; rewrite Ho; cbn; auto.
  - intros Hs. unfold main, Manage. rewrite Hd.
    destruct (os_Args p) as [|a [|b l]]; try contradiction;
      unfold rpio_Open, bind, emit, next_rpio_open, ret, ops; rewrite Ho, Hs; cbn; auto.
Qed.

Lemma startup_failure_witness :
  let p := mkProcess ["argononepicontroller"] None (fun _ => ("", None))
                     (Some "no such file or directory") [OsInterrupt "interrupt"] in
  ops (main p (mkWorld [] [None] [] [] [] [])) =
    [RpioOpen;
     Println errlog [PStr "failed opening smbus"; PStr (String "010" "Error: ");
                     PErr (Some "no such file or directory")];
     Exit 1] /\
  ops (main p (mkWorld [] [Some "permission denied"] [] [] [] [])) =
    [RpioOpen;
     Println errlog [PStr "failed opening gpio"; PStr (String "010" "Error: ");
                     PErr (Some "permission denied")];
     Exit 1].
Proof.
  intros p. split.
  - destruct (startup_failure p (mkWorld [] [None] [] [] [] [])) as [_ H];
      [cbn; lia|reflexivity|].
    apply (H "no such file or directory" [] eq_refl eq_refl).
  - destruct (startup_failure p (mkWorld [] [Some "permission denied"] [] [] [] []))
      as [H _]; [cbn; lia|reflexivity|].
    apply (H "permission denied" [] eq_refl).
Defined.

(** What [Manage] has done when it returns. *)
Lemma Manage_returns (p : process) (w w' : world) (t : trace) (r : string * go_error) :
  Manage p w = (t, Some (r, w')) ->
  t = [] \/ t = [RpioOpen] \/
  (exists s, t = startup_ops ++ [Println stdlog [PStr "Got signal: "; PSig s]; Cancel]) \/
  t = startup_ops ++ [Cancel].
Proof.
  unfold Manage.
  destruct (os_Args p) as [|a [|command l]].
  3: { repeat match goal with
              | |- context [String.eqb ?x ?y] => destruct (String.eqb x y)
              end; cbn; intros H; inversion H; auto. }
  all: unfold rpio_Open, bind, emit, next_rpio_open, ret, blocked;
    destruct (rpio_opens w) as [|[e|] os]; cbn; try discriminate;
    try (intros H; inversion H; now auto);
    destruct (smbus_New p); cbn; try (intros H; inversion H; now auto);
    destruct (arrivals p) as [|[s|err] more]; cbn; intros H; inversion H; eauto.
Qed.

Lemma main_of_Manage (p : process) (w : world) :
  daemon_New p = None ->
  main p w =
  match Manage p w with
  | (t, None) => (t, None)
  | (t, Some ((status, Some e), w')) =>
      (t ++ [Println errlog [PStr status; PStr (String "010" "Error: "); PErr (Some e)];
             Exit 1], Some (1, w'))
  | (t, Some ((status, None), w')) => (t ++ [Println stdlog [PStr status]], Some (0, w'))
  end.
Proof.
  intros Hd. unfold main. rewrite Hd. unfold bind.
  destruct (Manage p w) as [t [[[st [e|]] w']|]]; reflexivity.
Qed.

(** X4.  However [main] ends, its status is 0 or 1; it is 1 exactly when the
    process called [os.Exit(1)], which is exactly when it wrote to the
    error log; and the workers were started exactly when the context was
    cancelled before the end. *)
Theorem main_exit_invariant (p : process) (w : world) (c : Z) (w' : world) :
  snd (main p w) = Some (c, w') ->
  let t := ops (main p w) in
  (c = 0 \/ c = 1) /\
  (c = 1 <-> In (Exit 1) t) /\
  (c = 1 <-> exists args, In (Println errlog args) t) /\
  (In Cancel t <->
   In (Go "monitorTemperature") t /\ In (Go "handleTemperature") t /\
   In (Go "watchShutdownButton") t).
Proof.
  intros H t. subst t.
  destruct (daemon_New p) as [e0|] eqn:Hd.
  { unfold main in *. rewrite Hd in *. cbn in *. injection H as <- <-.
    repeat split; intros; try discriminate; auto;
      repeat match goal with
             | H : _ \/ _ |- _ => destruct H
             | H : _ /\ _ |- _ => destruct H
             | H : exists _, _ |- _ => destruct H
             | H : False |- _ => destruct H
             end; try discriminate; eauto 10. }
  rewrite (main_of_Manage p w Hd) in *.
  destruct (Manage p w) as [t [[[st err] w1]|]] eqn:E; [|discriminate].
  apply Manage_returns in E.
  destruct err as [e|]; cbn [snd] in H; injection H as <- <-; unfold ops; cbn [fst];
    destruct E as [-> | [-> | [[s ->] | ->]]]; cbn.
  all: repeat split; intros; try discriminate; auto;
    repeat match goal with
           | H : _ \/ _ |- _ => destruct H
           | H : _ /\ _ |- _ => destruct H
           | H : exists _, _ |- _ => destruct H
           | H : False |- _ => destruct H
           end; try discriminate; eauto 10.
Qed.

Lemma main_exit_invariant_witness :
  let p := mkProcess ["argononepicontroller"] None (fun _ => ("", None)) None
                     [ErrChannel (Some "exit status 255")] in
  let w := mkWorld [] [None] [] [] [] [] in
  In (Exit 1) (ops (main p w)) /\ In Cancel (ops (main p w)).
Proof.
  intros p w.
  destruct (main_exit_invariant p w 1 (mkWorld [] [] [] [] [] []) eq_refl)
    as (_ & H1 & _ & H3).
  split; [now apply H1|].
  apply H3. cbn. auto 10.
Defined.

(** ** The text handed to [ParseFloat] *)

Lemma prefix_app (a b : string) : String.prefix a (a ++ b)%string = true.
Proof.
  induction a as [|c a IH]; cbn; [now destruct b|].
  destruct (ascii_dec c c); [exact IH|congruence].
Qed.

Lemma prefix_split (a s : string) :
  String.prefix a s = true -> exists b, s = (a ++ b)%string.
Proof.
  revert s. induction a as [|c a IH]; intros s H.
  - now exists s.
  - destruct s as [|c' s]; cbn in H; [discriminate|].
    destruct (ascii_dec c c') as [->|]; [|discriminate].
    destruct (IH s H) as [b ->]. now exists b.
Qed.

Lemma substring_all (b : string) : substring 0 (String.length b) b = b.
Proof. induction b as [|c b IH]; cbn; [reflexivity|now rewrite IH]. Qed.

Lemma substring_drop (a b : string) :
  substring (String.length a) (String.length (a ++ b) - String.length a) (a ++ b) = b.
Proof.
  induction a as [|c a IH]; cbn [String.length String.append substring].
  - rewrite Nat.sub_0_r. apply substring_all.
  - exact IH.
Qed.

Lemma Replace1_unfold (s old new : string) :
  Replace1 s old new =
  if String.prefix old s
  then (new ++ substring (String.length old)
                         (String.length s - String.length old) s)%string
  else match s with
       | EmptyString => EmptyString
       | String c s' => String c (Replace1 s' old new)
       end.
Proof. now destruct s. Qed.

(** At an occurrence of [old] at the head, [old] gives way to [new]. *)
Lemma Replace1_head (old new b : string) :
  Replace1 (old ++ b) old new = (new ++ b)%string.
Proof. now rewrite Replace1_unfold, prefix_app, substring_drop. Qed.

Lemma Replace1_skip (c : ascii) (s old new : string) :
  String.prefix old (String c s) = false ->
  Replace1 (String c s) old new = String c (Replace1 s old new).
Proof. intros H. cbn [Replace1]. now rewrite H. Qed.

(** The first ['C] after a text free of apostrophes is the one removed. *)
Lemma Replace1_degree (x tail : string) :
  no_apostrophe x = true ->
  Replace1 (x ++ "'C" ++ tail) "'C" "" = (x ++ tail)%string.
Proof.
  induction x as [|c x IH]; intros H.
  - apply (Replace1_head "'C" "" tail).
  - cbn [no_apostrophe] in H. apply andb_prop in H. destruct H as [Hc Hx].
    change ((String c x ++ "'C" ++ tail)%string) with (String c (x ++ "'C" ++ tail)).
    rewrite Replace1_skip.
    + now rewrite (IH Hx).
    + cbn [String.prefix]. destruct (ascii_dec "'" c) as [<-|]; [discriminate|reflexivity].
Qed.

(** X5.  When the command succeeds and writes [temp=<x>'C<tail>], [x] free of
    apostrophes, [ParseFloat] is handed [x] followed by [tail]: the two
    markers are removed and whatever follows the unit (a line end, say) is
    kept.  Its value is the reading when it reports no error, and the
    reading is 0 with its error otherwise. *)
Theorem temperature_text
        (ParseFloat : string -> float64 * go_error) (o : cmd_outcome) (x tail : string) :
  cmd_err o = None ->
  cmd_stdout o = ("temp=" ++ x ++ "'C" ++ tail)%string ->
  no_apostrophe x = true ->
  read_result ParseFloat o =
  match ParseFloat (x ++ tail)%string with
  | (_, Some e) => (0%float, Some e)
  | (parsedFloat, None) => (parsedFloat, None)
  end.
Proof.
  intros He Hs Hx.
  unfold read_result, getCurrentTemperature, bind, emit, next_temp_run.
  cbn [temp_runs fst snd]. rewrite He, Hs.
  rewrite (Replace1_head "temp=" "" (x ++ "'C" ++ tail)).
  change (("" ++ (x ++ "'C" ++ tail))%string) with (x ++ "'C" ++ tail)%string.
  rewrite (Replace1_degree x tail Hx).
  destruct (ParseFloat (x ++ tail)%string) as [v [e|]]; reflexivity.
Qed.

Lemma temperature_text_witness :
  read_result sample_ParseFloat (mkOutcome None "temp=55.0'C") = (55%float, None) /\
  read_result sample_ParseFloat (mkOutcome None ("temp=55.0'C" ++ String "010" "")) =
    (0%float, Some "strconv.ParseFloat: parsing: invalid syntax").
Proof.
  split.
  - exact (temperature_text sample_ParseFloat (mkOutcome None "temp=55.0'C")
             "55.0" "" eq_refl eq_refl eq_refl).
  - exact (temperature_text sample_ParseFloat
             (mkOutcome None ("temp=55.0'C" ++ String "010" ""))
             "55.0" (String "010" "") eq_refl eq_refl eq_refl).
Defined.

Lemma prefix_false_no_head (old s b : string) :
  String.prefix old s = false -> s <> (old ++ b)%string.
Proof. intros H ->. now rewrite prefix_app in H. Qed.

(** X6.  [strings.Replace(s, old, new, 1)] as the program uses it: a text in
    which [old] does not occur is returned as it is; otherwise the leftmost
    occurrence of [old], and only that one, gives way to [new]. *)
Theorem Replace1_leftmost (s old new : string) :
  ((forall a b, s <> (a ++ old ++ b)%string) /\ Replace1 s old new = s) \/
  (exists a b,
     s = (a ++ old ++ b)%string /\
     Replace1 s old new = (a ++ new ++ b)%string /\
     forall a' b', s = (a' ++ old ++ b')%string ->
                   (String.length a <= String.length a')%nat).
Proof.
  induction s as [|c s IH].
  - destruct (String.prefix old "") eqn:Hp.
    + right. destruct (prefix_split old "" Hp) as [b Hb].
      exists ""%string, b. split; [exact Hb|]. split.
      * cbn [String.append]. rewrite Hb at 1. apply Replace1_head.
      * intros a' b' _. cbn. lia.
    + left. split.
      * intros [|c' a] b E; [|discriminate].
        now apply (prefix_false_no_head old "" b Hp).
      * rewrite Replace1_unfold. now rewrite Hp.
  - destruct (String.prefix old (String c s)) eqn:Hp.
    + right. destruct (prefix_split old _ Hp) as [b Hb].
      exists ""%string, b. split; [exact Hb|]. split.
      * cbn [String.append]. rewrite Hb at 1. apply Replace1_head.
      * intros a' b' _. cbn. lia.
    + rewrite (Replace1_skip c s old new Hp).
      destruct IH as [[Hno E] | (a & b & Hs & E & Hmin)].
      * left. split; [|now rewrite E].
        intros [|c' a] b Ha.
        -- now apply (prefix_false_no_head old _ b Hp).
        -- cbn [String.append] in Ha. injection Ha as _ Ha. now apply (Hno a b).
      * right. exists (String c a), b. split; [cbn [String.append]; now rewrite <- Hs|].
        split; [cbn [String.append]; now rewrite E|].
        intros [|c' a'] b' Ha.
        -- exfalso. now apply (prefix_false_no_head old _ b' Hp).
        -- cbn [String.append] in Ha. injection Ha as _ Ha.
           specialize (Hmin a' b' Ha). cbn [String.length]. lia.
Qed.

(** ** The rounds of the poller *)

Lemma slept_app (t1 t2 : trace) : slept (t1 ++ t2) = slept t1 + slept t2.
Proof.
  induction t1 as [|e t1 IH]; [reflexivity|].
  cbn [app]. unfold slept in *. cbn [fold_right]. rewrite IH. destruct e; lia.
Qed.

Lemma slept_polls (vs : list float64) :
  slept (flat_map poll_ok vs) = 5000 * Z.of_nat (List.length vs).
Proof.
  induction vs as [|v vs IH]; [reflexivity|].
  cbn [flat_map List.length]. rewrite slept_app, IH.
  change (slept (poll_ok v)) with 5000. lia.
Qed.

Lemma getCurrentTemperature_waits (ParseFloat : string -> float64 * go_error) (w : world) :
  temp_runs w = [] ->
  getCurrentTemperature ParseFloat w = ([Run "vcgencmd" ["measure_temp"]], None).
Proof.
  intros H. unfold getCurrentTemperature, bind, emit, next_temp_run. now rewrite H.
Qed.

(** The operations of the poller, for every sequence of polls and every
    world: rounds of a successful read, then a tail. *)
Lemma monitorTemperature_shape
      (ParseFloat : string -> float64 * go_error) (dones : list bool) (w : world) :
  exists vs tail,
    ops (monitorTemperature ParseFloat dones w) = flat_map poll_ok vs ++ tail /\
    poller_tail tail /\
    (List.length vs <= List.length dones)%nat /\
    (returned (monitorTemperature ParseFloat dones w) = true <->
     tail = [Println stdlog [PStr "temperature-watch: cancellation requested"]] \/
     exists e, tail = [Run "vcgencmd" ["measure_temp"]; SendErr (Some e)]).
Proof.
  revert w. induction dones as [|[] dones IH]; intros w.
  - exists [], []. unfold poller_tail. cbn. repeat split; auto; try lia; try discriminate.
    intros [H|[e H]]; discriminate.
  - exists [], [Println stdlog [PStr "temperature-watch: cancellation requested"]].
    unfold poller_tail. cbn. repeat split; auto; lia.
  - unfold monitorTemperature in *. cbn [for_select_default].
    destruct (temp_runs w) as [|o os] eqn:Hw.
    + exists [], [Run "vcgencmd" ["measure_temp"]].
      unfold bind, monitorTemperature_body. unfold bind.
      rewrite (getCurrentTemperature_waits ParseFloat w Hw).
      unfold poller_tail. cbn. repeat split; auto; try lia; try discriminate.
      intros [H|[e H]]; discriminate.
    + destruct (read_result ParseFloat o) as [v [e|]] eqn:Hr.
      * exists [], [Run "vcgencmd" ["measure_temp"]; SendErr (Some e)].
        unfold bind.
        rewrite (monitorTemperature_body_failed ParseFloat w o os v e Hw Hr).
        unfold poller_tail. cbn. repeat split; eauto; lia.
      * destruct (IH (set_temp_runs os w)) as (vs & tail & Ho & Ht & Hl & Hret).
        exists (v :: vs), tail. unfold bind.
        rewrite (monitorTemperature_body_ok ParseFloat w o os v Hw Hr).
        unfold ops, returned in *.
        destruct (for_select_default dones _ _ (set_temp_runs os w)) as [t r].
        cbn [fst snd] in *. subst t. cbn [flat_map List.length].
        rewrite <- app_assoc. repeat split; auto; try lia; apply Hret.
Qed.

Lemma poller_tail_quiet (tail : trace) :
  poller_tail tail -> temps_sent tail = [] /\ slept tail = 0.
Proof. intros [-> | [-> | [[e ->] | ->]]]; split; reflexivity. Qed.

(** X7.  Whatever the polls and the sensor do, the poller works in rounds: it
    runs the command, sends the value read and sleeps five seconds, at most
    once per poll; the values sent are those of the rounds, and it sleeps
    at no other time. *)
Theorem poller_rounds
        (ParseFloat : string -> float64 * go_error) (dones : list bool) (w : world) :
  let t := ops (monitorTemperature ParseFloat dones w) in
  exists vs tail,
    t = flat_map poll_ok vs ++ tail /\ poller_tail tail /\
    temps_sent t = vs /\
    slept t = 5000 * Z.of_nat (List.length vs) /\
    (List.length vs <= List.length dones)%nat.
Proof.
  intros t. subst t.
  destruct (monitorTemperature_shape ParseFloat dones w) as (vs & tail & Ho & Ht & Hl & _).
  exists vs, tail. destruct (poller_tail_quiet tail Ht) as [Hq Hs].
  rewrite Ho, temps_sent_app, slept_app, Hq, Hs, temps_sent_polls, slept_polls, app_nil_r.
  repeat split; auto; lia.
Qed.

(** X8.  The poller sends at most one error, always a non-nil one; the send is
    its last operation and it has returned after it. *)
Theorem poller_one_error
        (ParseFloat : string -> float64 * go_error) (dones : list bool) (w : world) :
  let run := monitorTemperature ParseFloat dones w in
  (List.length (errs_sent (ops run)) <= 1)%nat /\
  forall err, In (SendErr err) (ops run) ->
    exists t0 e, err = Some e /\ ops run = t0 ++ [SendErr (Some e)] /\
                 errs_sent t0 = [] /\ returned run = true.
Proof.
  intros run. subst run.
  destruct (monitorTemperature_shape ParseFloat dones w) as (vs & tail & Ho & Ht & _ & Hret).
  rewrite Ho, errs_sent_app, errs_sent_polls. cbn [app].
  assert (Hin : forall err, ~ In (SendErr err) (flat_map poll_ok vs)).
  { intros err H. apply in_flat_map in H. destruct H as (v & _ & H).
    cbn in H. intuition discriminate. }
  destruct Ht as [-> | [-> | [[e ->] | ->]]]; cbn; (split; [lia|]).
  all: intros err H; apply in_app_or in H; destruct H as [H|H];
    try (exfalso; now apply (Hin err)); cbn in H;
    repeat match goal with H : _ \/ _ |- _ => destruct H end;
    try discriminate; try contradiction.
  injection H as <-.
  exists (flat_map poll_ok vs ++ [Run "vcgencmd" ["measure_temp"]]), e.
  rewrite <- app_assoc. repeat split.
  - rewrite errs_sent_app, errs_sent_polls. reflexivity.
  - apply Hret. eauto.
Qed.

(** ** More on the shutdown-button watcher *)

(** X9.  When [rpio.Open] fails in the watcher, it sends the error and returns
    whatever the state of the context: the pin is never configured, armed
    or read and no command is run.  When it succeeds the pin is made an
    input with pull-down before the loop starts. *)
Theorem watcher_startup (dones : list bool) (w : world) (r : go_error) (os : list go_error) :
  rpio_opens w = r :: os ->
  match r with
  | Some e =>
      ops (watchShutdownButton dones w) = [RpioOpen; SendErr (Some e)] /\
      returned (watchShutdownButton dones w) = true
  | None =>
      exists w',
        watchShutdownButton dones w =
        after [RpioOpen; PinMode shutdownPin Input; PullMode shutdownPin PullDown]
              (watchShutdownButton_loop dones w') /\
        pin_reads w' = pin_reads w /\ reboot_runs w' = reboot_runs w /\
        shutdown_runs w' = shutdown_runs w
  end.
Proof.
  intros Ho. unfold watchShutdownButton, rpio_Open, bind, emit, next_rpio_open.
  rewrite Ho. destruct r as [e|]; cbn -[watchShutdownButton_loop].
  - split; reflexivity.
  - exists (mkWorld (temp_runs w) os (pin_reads w) (reboot_runs w) (shutdown_runs w)
                    (bus_writes w)).
    unfold after. split; [|cbn; auto].
    now destruct (watchShutdownButton_loop dones _).
Qed.

Lemma watcher_startup_witness :
  ops (watchShutdownButton [true]
         (mkWorld [] [Some "open /dev/gpiomem: permission denied"] [High] [None] [None] []))
  = [RpioOpen; SendErr (Some "open /dev/gpiomem: permission denied")].
Proof.
  exact (proj1 (watcher_startup [true]
           (mkWorld [] [Some "open /dev/gpiomem: permission denied"] [High] [None] [None] [])
           (Some "open /dev/gpiomem: permission denied") [] eq_refl)).
Defined.

Lemma pulse_loop_held (k : nat) (tick0 p : float64) :
  pulse_loop (repeat High k) 100 tick0 p = (measuring k, None).
Proof.
  revert p. induction k as [|k IH]; intros p; [reflexivity|].
  cbn [repeat pulse_loop]. rewrite IH. reflexivity.
Qed.

(** X10.  While the pin reads high the watcher stays in its measuring loop: it
    runs no command and does not return, whatever the context has become,
    since the context is polled only between two presses. *)
Theorem held_button_hides_cancellation (k : nat) (dones : list bool) (w : world) :
  pin_reads w = repeat High k ->
  watchShutdownButton_loop (false :: dones) w =
  (Detect shutdownPin RiseEdge :: Sleep 100 :: measuring k, None).
Proof.
  intros Hp. unfold watchShutdownButton_loop. cbn [for_select_default].
  unfold watchShutdownButton_body, bind, emit, measure.
  rewrite Hp, pulse_loop_held. reflexivity.
Qed.

Lemma held_button_hides_cancellation_witness :
  watchShutdownButton_loop [false; true]
    (mkWorld [] [] [High; High; High] [None] [None] []) =
  (Detect shutdownPin RiseEdge :: Sleep 100 :: measuring 3, None).
Proof.
  exact (held_button_hides_cancellation 3 [true]
           (mkWorld [] [] [High; High; High] [None] [None] []) eq_refl).
Defined.

Lemma all_thresholds_spec (n T0 : nat) :
  all_thresholds n T0 (pulse_after T0) = true ->
  forall T, (T0 <= T < T0 + n)%nat -> thresholds_at T (pulse_after T) = true.
Proof.
  revert T0. induction n as [|n IH]; intros T0 H T HT; [lia|].
  cbn [all_thresholds] in H. apply andb_prop in H. destruct H as [H0 H1].
  destruct (Nat.eq_dec T T0) as [->|Hne]; [exact H0|].
  apply (IH (S T0)); [exact H1|lia].
Qed.

Lemma all_thresholds_600 : all_thresholds 601 0 (pulse_after 0) = true.
Proof. now vm_compute. Qed.

(** X11.  For a press of up to 600 ticks, the float64 accumulator reaches 2
    exactly from 19 high polls on and 4 exactly from 39 high polls on; so
    an iteration whose reboot command returns runs the reboot command
    alone below 39 high polls, and the reboot command followed by the
    power-off command from 39 on. *)
Theorem hold_time_thresholds
        (T : nat) (w : world) (rest : list State) (r : go_error) (rs : list go_error) :
  (T <= 600)%nat ->
  pin_reads w = repeat High T ++ Low :: rest ->
  reboot_runs w = r :: rs ->
  (2 <=? pulse_after T)%float = (19 <=? T)%nat /\
  (4 <=? pulse_after T)%float = (39 <=? T)%nat /\
  runs_started (ops (watchShutdownButton_body w)) =
    if (39 <=? T)%nat then [("reboot", []); ("shutdown", ["now"])] else [("reboot", [])].
Proof.
  intros HT Hp Hr.
  assert (H : thresholds_at T (pulse_after T) = true)
    by (apply (all_thresholds_spec 601 0 all_thresholds_600); lia).
  unfold thresholds_at in H. apply andb_prop in H. destruct H as [H2 H4].
  apply Bool.eqb_prop in H2, H4. split; [exact H2|]. split; [exact H4|].
  rewrite (watchShutdownButton_body_ops T w rest Hp).
  set (w' := mkWorld _ _ _ _ _ _).
  assert (Hr' : reboot_runs w' = r :: rs) by exact Hr.
  cbn [runs_started flat_map app]. change (flat_map _ ?t) with (runs_started t).
  rewrite runs_started_app.
  assert (Hm : runs_started (measuring T) = []).
  { unfold measuring. rewrite runs_started_app. cbn [runs_started flat_map app].
    rewrite app_nil_r. clear. induction T as [|T IH]; [reflexivity|].
    cbn [repeat List.concat]. rewrite runs_started_app. now rewrite IH. }
  rewrite Hm, (classify_ops _ w' r rs Hr'), runs_started_app. cbn [app].
  rewrite (reboot_condition_not_nan (pulse_after T))
    by (apply sf_nonneg_not_nan, pulse_after_nonneg).
  rewrite H4. cbn [runs_started flat_map app]. change (flat_map _ ?t) with (runs_started t).
  rewrite runs_started_report. cbn [app].
  destruct (39 <=? T)%nat; [|reflexivity].
  cbn [runs_started flat_map app]. change (flat_map _ ?t) with (runs_started t).
  f_equal. f_equal. destruct (shutdown_runs w'); [reflexivity|apply runs_started_report].
Qed.

Lemma hold_time_thresholds_witness :
  runs_started (ops (watchShutdownButton_body
                       (mkWorld [] [] (repeat High 38 ++ [Low]) [None] [None] []))) =
    [("reboot", [])] /\
  runs_started (ops (watchShutdownButton_body
                       (mkWorld [] [] (repeat High 39 ++ [Low]) [None] [None] []))) =
    [("reboot", []); ("shutdown", ["now"])].
Proof.
  split.
  - refine (proj2 (proj2 (hold_time_thresholds 38
             (mkWorld [] [] (repeat High 38 ++ [Low]) [None] [None] []) [] None []
             _ eq_refl eq_refl))). lia.
  - refine (proj2 (proj2 (hold_time_thresholds 39
             (mkWorld [] [] (repeat High 39 ++ [Low]) [None] [None] []) [] None []
             _ eq_refl eq_refl))). lia.
Defined.

Lemma always_classify (P : event -> Prop) (d : float64) :
  P (Run "reboot" []) -> P (Run "shutdown" ["now"]) -> (forall e, P (SendErr e)) ->
  always P (classify d).
Proof.
  intros Hr Hs He. unfold classify. apply always_bind; [|intros _].
  - destruct ((2 <=? d)%float || (d <=? 3)%float); [|apply always_ret].
    apply always_bind.
    + unfold rebootCommand_Run.
      apply always_bind; [now apply always_emit|intros _].
      intros w. unfold ops, next_reboot_run. destruct (reboot_runs w); constructor.
    + intros [e|]; [now apply always_emit|apply always_ret].
  - destruct (4 <=? d)%float; [|apply always_ret].
    apply always_bind.
    + unfold shutdownCommand_Run.
      apply always_bind; [now apply always_emit|intros _].
      intros w. unfold ops, next_shutdown_run. destruct (shutdown_runs w); constructor.
    + intros [e|]; [now apply always_emit|apply always_ret].
Qed.

Lemma reads_made_app (t1 t2 : trace) :
  reads_made (t1 ++ t2) = (reads_made t1 + reads_made t2)%nat.
Proof. unfold reads_made. now rewrite filter_app, length_app. Qed.

Lemma measuring_time (T : nat) :
  slept (measuring T) = 100 * Z.of_nat T /\ reads_made (measuring T) = S T.
Proof.
  unfold measuring. rewrite slept_app, reads_made_app.
  change (slept [Read shutdownPin]) with 0. change (reads_made [Read shutdownPin]) with 1%nat.
  induction T as [|T [IH1 IH2]]; [split; reflexivity|].
  cbn [repeat List.concat]. rewrite slept_app, reads_made_app.
  change (slept [Read shutdownPin; Sleep 100]) with 100.
  change (reads_made [Read shutdownPin; Sleep 100]) with 1%nat.
  split; lia.
Qed.

Lemma quiet_trace (t : trace) :
  Forall (fun e => match e with Sleep _ | Read _ => False | _ => True end) t ->
  slept t = 0 /\ reads_made t = O.
Proof.
  induction 1 as [|e t He _ [IH1 IH2]]; [split; reflexivity|].
  unfold slept, reads_made in *. cbn [fold_right filter].
  destruct e; try contradiction; cbn [List.length]; auto.
Qed.

(** X12.  An iteration over a press of [T] high polls reads the pin [T + 1]
    times and sleeps 100 ms before each read, 100 * (T + 1) ms in all,
    whatever the power commands do. *)
Theorem iteration_timing (T : nat) (w : world) (rest : list State) :
  pin_reads w = repeat High T ++ Low :: rest ->
  slept (ops (watchShutdownButton_body w)) = 100 * (Z.of_nat T + 1) /\
  reads_made (ops (watchShutdownButton_body w)) = S T.
Proof.
  intros Hp. rewrite (watchShutdownButton_body_ops T w rest Hp).
  set (w' := mkWorld _ _ _ _ _ _).
  assert (Hq : slept (ops (classify (pulse_after T) w')) = 0 /\
               reads_made (ops (classify (pulse_after T) w')) = O).
  { apply quiet_trace. apply always_classify; auto. }
  destruct Hq as [Hq1 Hq2]. destruct (measuring_time T) as [Hm1 Hm2].
  change (Detect shutdownPin RiseEdge :: Sleep 100 :: ?t)
    with ([Detect shutdownPin RiseEdge; Sleep 100] ++ t).
  rewrite !slept_app, !reads_made_app, Hq1, Hq2, Hm1, Hm2.
  change (slept [Detect shutdownPin RiseEdge; Sleep 100]) with 100.
  change (reads_made [Detect shutdownPin RiseEdge; Sleep 100]) with O.
  split; lia.
Qed.

Lemma iteration_timing_witness :
  slept (ops (watchShutdownButton_body
                (mkWorld [] [] (repeat High 25 ++ [Low]) [Some "signal: killed"] [] [])))
  = 2600.
Proof.
  exact (proj1 (iteration_timing 25
           (mkWorld [] [] (repeat High 25 ++ [Low]) [Some "signal: killed"] [] [])
           [] eq_refl)).
Defined.

(** X13.  The power-off command is never run alone: wherever it is run in a
    classification, the reboot command was run before it. *)
Theorem shutdown_never_alone (d : float64) (w : world) (t1 t2 : trace) :
  ops (classify d w) = t1 ++ Run "shutdown" ["now"] :: t2 ->
  In (Run "reboot" []) t1.
Proof.
  intros H.
  destruct (4 <=? d)%float eqn:H4.
  - pose proof (reboot_condition_not_nan d (proj2 (leb_true_not_nan _ _ H4))) as Hc.
    unfold classify in H. rewrite Hc, H4 in H.
    destruct w as [tr ro pr rr sr bw].
    destruct rr as [|[e|] rr], sr as [|[e'|] sr]; cbn in H;
      destruct t1 as [|x t1]; try discriminate;
      injection H as <- H; now left.
  - unfold classify in H. rewrite H4 in H.
    destruct w as [tr ro pr rr sr bw].
    destruct ((2 <=? d)%float || (d <=? 3)%float), rr as [|[e|] rr]; cbn in H;
      repeat (destruct t1 as [|? t1]; try discriminate).
Qed.

Lemma shutdown_never_alone_witness :
  In (Run "reboot" []) [Run "reboot" []; SendErr (Some "exit status 1")].
Proof.
  exact (shutdown_never_alone (pulse_after 39)
           (mkWorld [] [] [] [Some "exit status 1"] [None] [])
           [Run "reboot" []; SendErr (Some "exit status 1")] [] eq_refl).
Defined.

(** ** The bytes of the fan speed *)

Lemma byte_of_bits (x m : Z) :
  Z.testbit (byte_of x) m = Z.testbit x m && ((0 <=? m) && (m <? 8)).
Proof.
  unfold byte_of. change 255 with (Z.ones 8).
  rewrite Z.land_spec, Z.testbit_ones by lia. reflexivity.
Qed.

Lemma byte_of_range (x : Z) : 0 <= byte_of x < 256.
Proof.
  unfold byte_of. change 255 with (Z.ones 8). rewrite Z.land_ones by lia.
  apply Z.mod_pos_bound. lia.
Qed.

Lemma high_bits_clear (v n : Z) : 0 <= v < 2 ^ 32 -> 32 <= n -> Z.testbit v n = false.
Proof.
  intros Hv Hn. destruct (Z.eq_dec v 0) as [->|Hz]; [apply Z.bits_0|].
  apply Z.bits_above_log2; [lia|].
  assert (Z.log2 v < 32) by (apply Z.log2_lt_pow2; lia). lia.
Qed.

(** The four little-endian bytes of [v] put together give [v] back. *)
Lemma le_bytes_join (v : Z) :
  0 <= v < 2 ^ 32 ->
  Z.lor (Z.lor (Z.lor (byte_of v) (Z.shiftl (byte_of (Z.shiftr v 8)) 8))
               (Z.shiftl (byte_of (Z.shiftr v 16)) 16))
        (Z.shiftl (byte_of (Z.shiftr v 24)) 24) = v.
Proof.
  intros Hv. apply Z.bits_inj'. intros n Hn.
  rewrite !Z.lor_spec, !Z.shiftl_spec, !byte_of_bits by lia.
  destruct (Z.ltb_spec n 8); [|destruct (Z.ltb_spec n 16);
    [|destruct (Z.ltb_spec n 24); [|destruct (Z.ltb_spec n 32)]]].
  all: repeat match goal with
              | |- context [?a <=? ?b] => destruct (Z.leb_spec a b); try lia
              | |- context [?a <? ?b] => destruct (Z.ltb_spec a b); try lia
              end;
    cbn [andb orb]; rewrite ?andb_false_r, ?andb_true_r, ?orb_false_r, ?orb_false_l;
    rewrite ?Z.shiftr_spec by lia.
  - reflexivity.
  - f_equal. lia.
  - f_equal. lia.
  - f_equal. lia.
  - symmetry. now apply high_bits_clear.
Qed.

(** X14.  [PutUint32] panics exactly on a slice shorter than four bytes.  On a
    longer one it keeps the length and the bytes after the fourth, writes
    four values that are bytes, and for a [v] that is a uint32 the decoding
    [Uint32] of the result is [v]. *)
Theorem PutUint32_round_trip (b : list Z) (v : Z) :
  (PutUint32 b v = None <-> (List.length b < 4)%nat) /\
  (forall b', PutUint32 b v = Some b' ->
     List.length b' = List.length b /\
     skipn 4 b' = skipn 4 b /\
     Forall (fun x => 0 <= x < 256) (firstn 4 b') /\
     (0 <= v < 2 ^ 32 -> Uint32 b' = Some v)).
Proof.
  unfold PutUint32.
  destruct b as [|b0 [|b1 [|b2 [|b3 rest]]]]; cbn [List.length Nat.ltb Nat.leb].
  1-4: split; [split; [intros _; lia|reflexivity]|intros b' H; discriminate].
  split; [split; [discriminate|lia]|].
  intros b' H. injection H as <-. cbn [store List.length skipn firstn].
  split; [reflexivity|]. split; [reflexivity|]. split.
  - repeat constructor; apply byte_of_range.
  - intros Hv. cbn [Uint32]. f_equal. now apply le_bytes_join.
Qed.

Lemma PutUint32_round_trip_witness :
  Uint32 [0xEF; 0xBE; 0xAD; 0xDE; 7] = Some 0xDEADBEEF.
Proof.
  destruct (PutUint32_round_trip [1; 2; 3; 4; 7] 0xDEADBEEF) as [_ H].
  destruct (H [0xEF; 0xBE; 0xAD; 0xDE; 7] eq_refl) as (_ & _ & _ & E).
  apply E. lia.
Defined.

(** ** Workers over several rounds *)




(** X16.  The readings the poller sends, received in order by the controller,
    give one speed-100 write per reading above 50: the command count of the
    fan follows the sensor alone. *)
Theorem poller_to_controller
        (ParseFloat : string -> float64 * go_error)
        (outs : list cmd_outcome) (vs : list float64) (w1 w2 : world) :
  Forall2 (fun o v => read_result ParseFloat o = (v, None)) outs vs ->
  temp_runs w1 = outs ->
  (List.length (hot vs) <= List.length (bus_writes w2))%nat ->
  let sent :=
    temps_sent (ops (monitorTemperature ParseFloat (repeat false (List.length outs)) w1)) in
  sent = vs /\
  writes_issued (ops (handleTemperature (map Received sent) w2)) =
    map (fun _ => speed_100) (hot vs).
Proof.
  intros Hok Hw Hlen sent.
  assert (Hs : sent = vs).
  { subst sent.
    pose proof (monitorTemperature_reads ParseFloat outs vs Hok [] [] w1) as E.
    rewrite !app_nil_r in E. rewrite (E Hw). unfold after, ops.
    cbn [monitorTemperature for_select_default blocked fst].
    now rewrite app_nil_r, temps_sent_polls. }
  split; [exact Hs|]. rewrite Hs.
  pose proof (handleTemperature_readings vs [] w2 Hlen) as E.
  rewrite app_nil_r in E. rewrite E. unfold after, ops.
  cbn [fst handleTemperature blocked]. rewrite app_nil_r.
  clear. induction vs as [|x vs IH]; [reflexivity|].
  cbn [flat_map]. rewrite writes_issued_app, IH.
  unfold hot, fan_response. cbn [filter]. now destruct (50 <? x)%float.
Qed.

Lemma poller_to_controller_witness :
  let ok s := mkOutcome None s in
  let w1 := mkWorld [ok "temp=30.0'C"; ok "temp=55.0'C"; ok "temp=40.0'C"]
                    [] [] [] [] [] in
  let w2 := mkWorld [] [] [] [] [] [Some "remote I/O error"] in
  writes_issued
    (ops (handleTemperature
            (map Received
               (temps_sent (ops (monitorTemperature sample_ParseFloat
                                   [false; false; false] w1)))) w2)) = [speed_100].
Proof.
  intros ok w1 w2.
  assert (Hok : Forall2 (fun o v => read_result sample_ParseFloat o = (v, None))
                        [ok "temp=30.0'C"; ok "temp=55.0'C"; ok "temp=40.0'C"]
                        [30; 55; 40]%float) by (repeat constructor).
  destruct (poller_to_controller sample_ParseFloat _ _ w1 w2 Hok eq_refl) as [_ H].
  - vm_compute. lia.
  - exact H.
Defined.
